(** * watchlist_api_client: a shallow embedding of the validation, timestamp
    and reporting logic, with the properties stated about it.

    The Python sources embedded here are
      - [watchlist_api_client/helpers.py]
      - [watchlist_api_client/config_sender.py]
      - [watchlist_api_client/config_retriever.py]
      - [watchlist_api_client/scripts/cli.py]
      - [watchlist_api_client/data_structures.py]

    Python [str] values are Stdlib strings (code points 0..255), exceptions
    are the [Raise] branch of [result], dictionaries are [gmap]s. *)

From Stdlib Require Import ZArith NArith Ascii DecimalString.
From stdpp Require Import gmap strings list fin_maps.

Local Open Scope Z_scope.

(** ** Exceptions and the result monad *)

Inductive exn : Type :=
  | ImproperFileFormat (msg : string)
  | MissingOnyxCredentialsError (msg : string)
  | InvalidOnyxCredentialTypeError
  | ParserError (raw : string)
  | KeyError (key : string)
  | IndexError
  | TypeError
  | UnmodelledDirective (directive : ascii).

Inductive result (A : Type) : Type :=
  | Ok (a : A)
  | Raise (e : exn).
Arguments Ok {A} a.
Arguments Raise {A} e.

#[global] Instance result_ret : MRet result := fun A a => Ok a.
#[global] Instance result_bind : MBind result := fun A B f m =>
  match m with
  | Ok a => f a
  | Raise e => Raise e
  end.

(** ** Python string primitives *)

Module Py.

Definition newline : ascii := Ascii.ascii_of_nat 10.

(** [c in chars] for a one-character string [c]. *)
Fixpoint mem_chars (c : ascii) (chars : string) : bool :=
  match chars with
  | EmptyString => false
  | String x rest => Ascii.eqb c x || mem_chars c rest
  end.

Definition in_range (lo hi c : ascii) : bool :=
  ((Ascii.N_of_ascii lo <=? Ascii.N_of_ascii c)
   && (Ascii.N_of_ascii c <=? Ascii.N_of_ascii hi))%N.

Fixpoint all_chars (p : ascii -> bool) (s : string) : bool :=
  match s with
  | EmptyString => true
  | String c rest => p c && all_chars p rest
  end.

(** [s.startswith(p)], returning the remainder. *)
Fixpoint strip_prefix (p s : string) : option string :=
  match p, s with
  | EmptyString, _ => Some s
  | String a p', String b s' => if Ascii.eqb a b then strip_prefix p' s' else None
  | String _ _, EmptyString => None
  end.

(** [sep.join(parts)] *)
Fixpoint join (sep : string) (parts : list string) : string :=
  match parts with
  | [] => ""
  | [p] => p
  | p :: rest => p +:+ sep +:+ join sep rest
  end.

(** [s.split(sep)] for a one-character separator: never empty. *)
Fixpoint split (sep : ascii) (s : string) : list string :=
  match s with
  | EmptyString => [""]
  | String c rest =>
      if Ascii.eqb c sep then "" :: split sep rest
      else match split sep rest with
           | seg :: segs => String c seg :: segs
           | [] => [String c ""]
           end
  end.

(** [s.split(sep, 1)] as a pair: the text before the first [sep], and the
    text after it when there is one. *)
Fixpoint partition (sep : ascii) (s : string) : string * option string :=
  match s with
  | EmptyString => ("", None)
  | String c rest =>
      if Ascii.eqb c sep then ("", Some rest)
      else let '(before, after) := partition sep rest in (String c before, after)
  end.

(** [s.replace(old, new)] for a non-empty [old]: leftmost, non-overlapping
    occurrences.  [skip] counts the characters of a matched occurrence
    that are still to be dropped. *)
Fixpoint replace_from (old new : string) (skip : nat) (s : string) : string :=
  match s with
  | EmptyString => ""
  | String c rest =>
      match skip with
      | S k => replace_from old new k rest
      | O =>
          match strip_prefix old s with
          | Some _ => new +:+ replace_from old new (String.length old - 1) rest
          | None => String c (replace_from old new 0 rest)
          end
      end
  end.
Definition replace (old new s : string) : string := replace_from old new 0 s.

(** [str(n)] for an [int]. *)
Definition str_of_int (z : Z) : string := NilZero.string_of_int (Z.to_int z).
Definition str_of_nat (n : nat) : string := NilZero.string_of_uint (Nat.to_uint n).

Definition lower_char (c : ascii) : ascii :=
  if in_range "A" "Z" c then Ascii.ascii_of_N (Ascii.N_of_ascii c + 32) else c.
Fixpoint lower (s : string) : string :=
  match s with
  | EmptyString => ""
  | String c rest => String (lower_char c) (lower rest)
  end.

End Py.

(** ** The fragment of [re] used by the validators

    A compiled pattern is a sequence of atoms.  [re.match] anchors the match
    at position 0 and accepts as soon as the pattern is exhausted.  Without
    [re.MULTILINE], [^] matches at position 0 only and [$] matches at the end
    of the string and also just before a newline that ends the string. *)

Module Re.

Inductive atom : Type :=
  | Bol                                   (* ^ *)
  | Eol                                   (* $ *)
  | Lit (text : string)                   (* literal characters *)
  | Rep (cls : ascii -> bool) (lo : nat) (hi : option nat).  (* [cls]{lo,hi} *)

Definition at_eol (s : string) : bool :=
  match s with
  | EmptyString => true
  | String c EmptyString => Ascii.eqb c Py.newline
  | _ => false
  end.

Definition may_take (hi : option nat) : bool :=
  match hi with Some O => false | _ => true end.

(** Greedy repetition with backtracking: take one more character when
    allowed, otherwise (or if that fails) continue with [k]. *)
Fixpoint match_rep (cls : ascii -> bool) (k : nat -> string -> bool)
    (lo : nat) (hi : option nat) (pos : nat) (s : string) : bool :=
  match s with
  | String c rest =>
      cls c && may_take hi
      && match_rep cls k (Nat.pred lo) (Nat.pred <$> hi) (S pos) rest
  | EmptyString => false
  end
  || (Nat.eqb lo 0 && k pos s).

Fixpoint match_atoms (pat : list atom) (pos : nat) (s : string) : bool :=
  match pat with
  | [] => true
  | Bol :: pat' => Nat.eqb pos 0 && match_atoms pat' pos s
  | Eol :: pat' => at_eol s && match_atoms pat' pos s
  | Lit text :: pat' =>
      match Py.strip_prefix text s with
      | Some rest => match_atoms pat' (pos + String.length text) rest
      | None => false
      end
  | Rep cls lo hi :: pat' => match_rep cls (match_atoms pat') lo hi pos s
  end.

(** [re.match(pat, s)] as a truth value. *)
Definition re_match (pat : list atom) (s : string) : bool := match_atoms pat 0 s.

End Re.

(** ** config_sender.py: header and row validation *)

(** [r"^sourceId,RTSsymbol$"] *)
Definition header_pattern : list Re.atom :=
  [Re.Bol; Re.Lit "sourceId,RTSsymbol"; Re.Eol].

Definition validate_header (header : string) : result unit :=
  if negb (Re.re_match header_pattern header)
  then Raise (ImproperFileFormat "Improperly formatted header")
  else Ok tt.

(** The class [[0-9]]. *)
Definition source_id_char (c : ascii) : bool := Py.in_range "0" "9" c.

(** The class [[A-Z0-9\\+;()!*\-.:/$@&_%#]] of the raw pattern: inside the
    brackets [\\] is a backslash and [\-] a hyphen. *)
Definition symbol_char (c : ascii) : bool :=
  Py.in_range "A" "Z" c || Py.in_range "0" "9" c
  || Py.mem_chars c "\+;()!*-.:/$@&_%#".

(** [r"^[0-9]{3,4},[A-Z0-9\\+;()!*\-.:/$@&_%#]+$"] *)
Definition row_pattern : list Re.atom :=
  [Re.Bol; Re.Rep source_id_char 3 (Some 4%nat); Re.Lit ",";
   Re.Rep symbol_char 1 None; Re.Eol].

Definition validate_row (row : string) (row_index : nat) : result unit :=
  if negb (Re.re_match row_pattern row)
  then Raise (ImproperFileFormat
                ("Line " +:+ Py.str_of_nat row_index +:+ " - Improperly formatted"))
  else Ok tt.


(** [validate_watchlist_configuration_file]: the [csv.reader] is an iterator
    over the rows of the file (each a list of fields).  The loop pulls one row
    at a time; the function's outcome is paired with the rows the reader
    still holds when the function exits, so what was never read is visible. *)
Fixpoint validate_rows (index : nat) (csv_reader : list (list string))
    : result unit * list (list string) :=
  match csv_reader with
  | [] => (Ok tt, [])
  | row :: unread =>
      match (if Nat.eqb index 0
             then validate_header (Py.join "," row)
             else validate_row (Py.join "," row) index) with
      | Ok _ => validate_rows (S index) unread
      | Raise e => (Raise e, unread)
      end
  end.

Definition validate_watchlist_configuration_file (csv_rows : list (list string))
    : result unit * list (list string) :=
  validate_rows 0 csv_rows.

(** ** scripts/cli.py: credential validation *)

(** A credential as the command line hands it over: [None], a [str], or a
    value of another type (the tests use integers). *)
Inductive credential : Type :=
  | CNone
  | CStr (s : string)
  | COther (n : Z).

Definition is_none (c : credential) : bool :=
  match c with CNone => true | _ => false end.
Definition type_is_not_str (c : credential) : bool :=
  match c with CStr _ => false | _ => true end.

Definition validate_credentials_type (credentials : credential * credential)
    : result unit :=
  let '(c1, c2) := credentials in
  if existsb type_is_not_str [c1; c2]
  then Raise InvalidOnyxCredentialTypeError
  else Ok tt.

Definition validate_credentials_presence (credentials : credential * credential)
    : result unit :=
  let '(username, password) := credentials in
  if forallb is_none [username; password]
  then Raise (MissingOnyxCredentialsError "Missing username and password")
  else if existsb is_none [username; password]
  then (if is_none username
        then Raise (MissingOnyxCredentialsError "Missing username")
        else Raise (MissingOnyxCredentialsError "Missing password"))
  else Ok tt.

(** The presence check returns [None] when it does not raise, so the guard
    [not validate_credentials_presence(...)] is always true once it returns. *)
Definition validate_credentials (credentials : credential * credential)
    : result unit :=
  _ ← validate_credentials_presence credentials;
  validate_credentials_type credentials.

(** ** data_structures.py *)

(** Values of the summary mapping, [Union[int, List[str]]], and [None] for
    what [dict.get] answers on a missing key. *)
Inductive pyval : Type :=
  | PNone
  | PInt (n : Z)
  | PList (items : list string).

Record RequestSummary : Type := {
  submission_time : option string;       (* [headers.get('Date')] *)
  summary : gmap string pyval
}.

Record RetrievedConfig : Type := {
  timestamp : string;
  config_body : list Byte.byte
}.

(** ** Python rendering of values *)

Module PyVal.

Definition dquote : ascii := Ascii.ascii_of_nat 34.
Definition squote : ascii := Ascii.ascii_of_nat 39.
Definition backslash : ascii := Ascii.ascii_of_nat 92.

Definition hex_digit (n : N) : ascii :=
  if (n <? 10)%N then Ascii.ascii_of_N (48 + n) else Ascii.ascii_of_N (87 + n).

(** Code points 0..255 that [repr] writes as [\xhh]. *)
Definition unprintable (c : ascii) : bool :=
  let n := Ascii.N_of_ascii c in
  ((n <? 32) || ((127 <=? n) && (n <=? 160)) || (n =? 173))%N.

Definition repr_char (quote c : ascii) : string :=
  if Ascii.eqb c backslash then String backslash (String backslash "")
  else if Ascii.eqb c quote then String backslash (String quote "")
  else if Ascii.eqb c (Ascii.ascii_of_nat 10) then String backslash "n"
  else if Ascii.eqb c (Ascii.ascii_of_nat 13) then String backslash "r"
  else if Ascii.eqb c (Ascii.ascii_of_nat 9) then String backslash "t"
  else if unprintable c then
    let n := Ascii.N_of_ascii c in
    String backslash (String "x" (String (hex_digit (n / 16)) (String (hex_digit (n mod 16)) "")))
  else String c "".

Fixpoint repr_chars (quote : ascii) (s : string) : string :=
  match s with
  | EmptyString => ""
  | String c rest => repr_char quote c +:+ repr_chars quote rest
  end.

(** [repr(s)]: single quotes unless the text has a single quote and no
    double quote. *)
Definition repr_str (s : string) : string :=
  let quote := if Py.mem_chars squote s && negb (Py.mem_chars dquote s)
               then dquote else squote in
  String quote (repr_chars quote s) +:+ String quote "".

(** [str(v)], what an f-string interpolates. *)
Definition str (v : pyval) : string :=
  match v with
  | PNone => "None"
  | PInt n => Py.str_of_int n
  | PList items => "[" +:+ Py.join ", " (repr_str <$> items) +:+ "]"
  end.

Definition str_opt (o : option string) : string :=
  match o with Some s => s | None => "None" end.

(** [v != 0] *)
Definition ne_zero (v : pyval) : bool :=
  match v with
  | PInt n => negb (n =? 0)
  | _ => true
  end.

(** [', '.join(v)]: a [TypeError] unless [v] is a list of strings. *)
Definition join_ids (v : pyval) : result string :=
  match v with
  | PList items => Ok (Py.join ", " items)
  | _ => Raise TypeError
  end.

(** [d.get(key)] *)
Definition get (d : gmap string pyval) (key : string) : pyval :=
  default PNone (d !! key).

End PyVal.

Definition nl : string := String Py.newline "".

(** ** config_sender.py: the human-readable report *)

Definition stringify_response_summary (request_summary : RequestSummary)
    : result string :=
  let get := PyVal.get request_summary.(summary) in
  let summary := "" in
  let high_level_summary :=
    PyVal.str_opt request_summary.(submission_time) +:+ nl +:+ nl
    +:+ "Actions performed as a result of the request:" +:+ nl
    +:+ "  - " +:+ PyVal.str (get "nbCreated") +:+ " new sources have been activated" +:+ nl
    +:+ "  - " +:+ PyVal.str (get "nbUpdated") +:+ " existing sources have been updated" +:+ nl
    +:+ "  - " +:+ PyVal.str (get "nbFailed") +:+ " sources have failed" +:+ nl
    +:+ "  - " +:+ PyVal.str (get "nbDeactivated") +:+ " existing sources have been deactivated"
    +:+ nl +:+ nl in
  let summary := summary +:+ high_level_summary in
  summary ←
    (if PyVal.ne_zero (get "nbCreated") then
       ids ← PyVal.join_ids (get "created");
       mret (summary +:+ ("The following sources have been activated: " +:+ ids +:+ nl))
     else mret summary);
  summary ←
    (if PyVal.ne_zero (get "nbUpdated") then
       ids ← PyVal.join_ids (get "updated");
       mret (summary +:+ ("The following sources have been updated: " +:+ ids +:+ nl))
     else mret summary);
  summary ←
    (if PyVal.ne_zero (get "nbFailed") then
       ids ← PyVal.join_ids (get "failed");
       mret (summary +:+ ("The following sources have failed: " +:+ ids +:+ nl))
     else mret summary);
  summary ←
    (if PyVal.ne_zero (get "nbDeactivated") then
       ids ← PyVal.join_ids (get "deactivated");
       mret (summary +:+ ("The following sources have been deactivated: " +:+ ids +:+ nl))
     else mret summary);
  mret summary.

(** ** helpers.py: timestamps *)

(** [datetime.datetime]: calendar and clock fields, and the UTC offset in
    seconds of the attached [tzinfo] ([None] for a naive value). *)
Record datetime : Type := {
  year : nat; month : nat; day : nat;
  hour : nat; minute : nat; second : nat; microsecond : nat;
  tzinfo : option Z
}.

Definition tzutc : option Z := Some 0.

(** [dt.replace(tzinfo=tz)]: the fields stay, the zone is overwritten. *)
Definition replace_tzinfo (dt : datetime) (tz : option Z) : datetime :=
  {| year := dt.(year); month := dt.(month); day := dt.(day);
     hour := dt.(hour); minute := dt.(minute); second := dt.(second);
     microsecond := dt.(microsecond); tzinfo := tz |}.

Module Strftime.

Fixpoint zeros (n : nat) : string :=
  match n with O => "" | S k => String "0" (zeros k) end.

(** A decimal number left-padded with zeros to [width] characters. *)
Definition padded (width n : nat) : string :=
  let digits := Py.str_of_nat n in
  zeros (width - String.length digits) +:+ digits.

(** The directives the package uses, as the C library under CPython
    writes them: [%Y] is the year as a plain decimal number (a year below
    1000 has fewer than four digits), the other fields are two digits. *)
Definition directive (dt : datetime) (d : ascii) : result string :=
  if Ascii.eqb d "Y" then Ok (Py.str_of_nat dt.(year))
  else if Ascii.eqb d "m" then Ok (padded 2 dt.(month))
  else if Ascii.eqb d "d" then Ok (padded 2 dt.(day))
  else if Ascii.eqb d "H" then Ok (padded 2 dt.(hour))
  else if Ascii.eqb d "M" then Ok (padded 2 dt.(minute))
  else if Ascii.eqb d "S" then Ok (padded 2 dt.(second))
  else if Ascii.eqb d "%" then Ok "%"
  else Raise (UnmodelledDirective d).

(** [datetime.datetime.strftime(dt, fmt)]; other characters are copied. *)
Fixpoint strftime (dt : datetime) (fmt : string) : result string :=
  match fmt with
  | EmptyString => Ok ""
  | String c rest =>
      if Ascii.eqb c "%" then
        match rest with
        | String d rest' =>
            piece ← directive dt d;
            tail ← strftime dt rest';
            mret (piece +:+ tail)
        | EmptyString => Ok "%"
        end
      else
        tail ← strftime dt rest;
        mret (String c tail)
  end.

End Strftime.

Definition default_date_format : string := "%Y-%m-%dT%H:%M:%SZ".

Section Helpers.

(** [dateutil.parser.parse] is a third-party function: the package code is
    embedded over any parser [dateutil_parse], where [None] stands for the
    parser raising [ParserError]. *)
Variable dateutil_parse : string -> option datetime.

Definition parse_utc_timestamp (raw_timestamp : string) : result datetime :=
  match dateutil_parse raw_timestamp with
  | Some parsed => Ok (replace_tzinfo parsed tzutc)
  | None => Raise (ParserError raw_timestamp)
  end.

Definition format_utc_timestamp (utc_timestamp : datetime) (date_format : string)
    : result string :=
  Strftime.strftime utc_timestamp date_format.

Definition convert_raw_utc_timestamp_to_string (raw_timestamp date_format : string)
    : result string :=
  utc_timestamp ← parse_utc_timestamp raw_timestamp;
  format_utc_timestamp utc_timestamp date_format.

End Helpers.

(** ** helpers.py: query strings *)

Module Urllib.

(** The characters [quote] never escapes: letters, digits and [_.-~]. *)
Definition always_safe (c : ascii) : bool :=
  Py.in_range "A" "Z" c || Py.in_range "a" "z" c || Py.in_range "0" "9" c
  || Py.mem_chars c "_.-~".

(** UTF-8 bytes of a code point below 256. *)
Definition utf8 (c : ascii) : list ascii :=
  let n := Ascii.N_of_ascii c in
  if (n <? 128)%N then [c]
  else [Ascii.ascii_of_N (192 + n / 64); Ascii.ascii_of_N (128 + n mod 64)].

Definition upper_hex (n : N) : ascii :=
  if (n <? 10)%N then Ascii.ascii_of_N (48 + n) else Ascii.ascii_of_N (55 + n).

Definition quote_byte (b : ascii) : string :=
  if always_safe b then String b ""
  else let n := Ascii.N_of_ascii b in
       String "%" (String (upper_hex (n / 16)) (String (upper_hex (n mod 16)) "")).

(** [quote_plus] one character at a time: a space becomes [+], everything
    outside the safe set is percent-encoded byte by byte. *)
Definition quote_plus_char (c : ascii) : string :=
  if Ascii.eqb c " " then "+"
  else foldr (fun b acc => quote_byte b +:+ acc) "" (utf8 c).

Fixpoint quote_plus (s : string) : string :=
  match s with
  | EmptyString => ""
  | String c rest => quote_plus_char c +:+ quote_plus rest
  end.

(** [urlencode] of a dictionary of strings, in insertion order. *)
Definition urlencode (query : list (string * string)) : string :=
  Py.join "&" ((fun kv => quote_plus kv.1 +:+ "=" +:+ quote_plus kv.2) <$> query).

(** [urlparse(url).query]: the fragment is cut at the first [#], then the
    query is what follows the first [?].  The scheme and the network
    location contain neither character, so splitting them off first does
    not change the result.  The URL is the one of a prepared request, which
    holds no raw tab or newline and no malformed bracketed host, the two
    things [urlsplit] would otherwise delete or reject. *)
Definition urlparse_query (url : string) : string :=
  let without_fragment := (Py.partition "#" url).1 in
  default "" (Py.partition "?" without_fragment).2.

End Urllib.

Definition prepare_timestamp_query_string (iso_formatted_utc_timestamp : string)
    : string :=
  Py.replace "%3A" ":" (Urllib.urlencode [("dateTime", iso_formatted_utc_timestamp)]).

(** [base_url[:-1]] for a non-empty string. *)
Fixpoint drop_last (s : string) : string :=
  match s with
  | EmptyString => ""
  | String c EmptyString => ""
  | String c rest => String c (drop_last rest)
  end.

Fixpoint endswith_char (s : string) (c : ascii) : bool :=
  match s with
  | EmptyString => false
  | String x EmptyString => Ascii.eqb x c
  | String _ rest => endswith_char rest c
  end.

Definition join_base_url_and_query_string (base_url query_string : string) : string :=
  if endswith_char base_url "/"
  then drop_last base_url +:+ "?" +:+ query_string
  else base_url +:+ "?" +:+ query_string.

(** ** config_retriever.py *)

(** The parts of a [requests.Response] the package reads.  The headers are a
    case-insensitive dictionary: names are stored in lower case and looked
    up in lower case. *)
Record Response : Type := {
  request_url : string;
  headers : gmap string string;
  content : list Byte.byte
}.

Definition headers_getitem (h : gmap string string) (name : string) : result string :=
  match h !! Py.lower name with
  | Some v => Ok v
  | None => Raise (KeyError (Py.lower name))
  end.

Definition headers_get (h : gmap string string) (name : string) : option string :=
  h !! Py.lower name.

Section Retriever.

Variable dateutil_parse : string -> option datetime.

Definition infer_timestamp_from_retrieved_response (response : Response)
    : result string :=
  if String.eqb (Urllib.urlparse_query response.(request_url)) ""
  then
    date ← headers_getitem response.(headers) "Date";
    convert_raw_utc_timestamp_to_string dateutil_parse date "%Y%m%dT%H%M%SZ"
  else
    match Py.split "=" (Urllib.urlparse_query response.(request_url)) !! 1%nat with
    | Some value =>
        convert_raw_utc_timestamp_to_string dateutil_parse value "%Y%m%dT%H%M%SZ"
    | None => Raise IndexError
    end.

Definition package_retrieved_configuration (response : Response)
    : result RetrievedConfig :=
  ts ← infer_timestamp_from_retrieved_response response;
  mret {| timestamp := ts; config_body := response.(content) |}.

End Retriever.

(** [react_to_status_code_200], with the JSON body already decoded. *)
Definition react_to_status_code_200 (response : Response) (json : gmap string pyval)
    : RequestSummary :=
  {| submission_time := headers_get response.(headers) "Date"; summary := json |}.

(** ** A concrete parser for the two documented timestamp grammars *)

Module Dateutil.

Definition digit_value (c : ascii) : nat := Ascii.nat_of_ascii c - 48.

(** Exactly [n] decimal digits. *)
Fixpoint digits (n acc : nat) (s : string) : option (nat * string) :=
  match n with
  | O => Some (acc, s)
  | S k =>
      match s with
      | String c rest =>
          if Py.in_range "0" "9" c
          then digits k (10 * acc + digit_value c)%nat rest
          else None
      | EmptyString => None
      end
  end.

Definition expect (text s : string) : option string := Py.strip_prefix text s.

(** The 1-based position of the name that [s] starts with. *)
Fixpoint name_index (names : list string) (i : nat) (s : string)
    : option (nat * string) :=
  match names with
  | [] => None
  | name :: others =>
      match Py.strip_prefix name s with
      | Some rest => Some (i, rest)
      | None => name_index others (S i) s
      end
  end.

Definition weekdays : list string := ["Mon"; "Tue"; "Wed"; "Thu"; "Fri"; "Sat"; "Sun"].
Definition months : list string :=
  ["Jan"; "Feb"; "Mar"; "Apr"; "May"; "Jun"; "Jul"; "Aug"; "Sep"; "Oct"; "Nov"; "Dec"].

Definition is_leap (y : nat) : bool :=
  ((y mod 4 =? 0) && (negb (y mod 100 =? 0) || (y mod 400 =? 0)))%nat.

Definition days_in_month (y m : nat) : nat :=
  match m with
  | 2 => if is_leap y then 29 else 28
  | 4 | 6 | 9 | 11 => 30
  | _ => 31
  end%nat.

Definition valid_fields (y m d hh mm ss : nat) : bool :=
  ((1 <=? y) && (1 <=? m) && (m <=? 12) && (1 <=? d) && (d <=? days_in_month y m)
   && (hh <? 24) && (mm <? 60) && (ss <? 60))%nat.

Definition build (y m d hh mm ss : nat) (tz : option Z) : option datetime :=
  if valid_fields y m d hh mm ss
  then Some {| year := y; month := m; day := d; hour := hh; minute := mm;
               second := ss; microsecond := 0; tzinfo := tz |}
  else None.

(** [HH:MM:SS] *)
Definition clock (s : string) : option (nat * nat * nat * string) :=
  '(hh, s) ← digits 2 0 s;
  s ← expect ":" s;
  '(mm, s) ← digits 2 0 s;
  s ← expect ":" s;
  '(ss, s) ← digits 2 0 s;
  Some (hh, mm, ss, s).

(** The zone designator that ends an ISO-8601 timestamp: nothing, [Z], or
    a signed [HH:MM] offset. *)
Definition iso_zone (s : string) : option (option Z) :=
  match s with
  | EmptyString => Some None
  | String c rest =>
      if Ascii.eqb c "Z" then (if String.eqb rest "" then Some (Some 0) else None)
      else if Ascii.eqb c "+" || Ascii.eqb c "-" then
        '(hh, s) ← digits 2 0 rest;
        s ← expect ":" s;
        '(mm, s) ← digits 2 0 s;
        if String.eqb s "" && (hh <? 24)%nat && (mm <? 60)%nat then
          let seconds := Z.of_nat (hh * 3600 + mm * 60) in
          Some (Some (if Ascii.eqb c "-" then - seconds else seconds))
        else None
      else None
  end.

(** [YYYY-MM-DDTHH:MM:SS] followed by a zone designator *)
Definition iso8601 (s : string) : option datetime :=
  '(y, s) ← digits 4 0 s;
  s ← expect "-" s;
  '(m, s) ← digits 2 0 s;
  s ← expect "-" s;
  '(d, s) ← digits 2 0 s;
  s ← expect "T" s;
  '(hh, mm, ss, s) ← clock s;
  tz ← iso_zone s;
  build y m d hh mm ss tz.

(** [Www, DD Mon YYYY HH:MM:SS GMT]; the day name is read and, as in
    dateutil, not compared with the date. *)
Definition rfc1123 (s : string) : option datetime :=
  '(_, s) ← name_index weekdays 1 s;
  s ← expect ", " s;
  '(d, s) ← digits 2 0 s;
  s ← expect " " s;
  '(m, s) ← name_index months 1 s;
  s ← expect " " s;
  '(y, s) ← digits 4 0 s;
  s ← expect " " s;
  '(hh, mm, ss, s) ← clock s;
  s ← expect " " s;
  if String.eqb s "GMT" || String.eqb s "UTC" then build y m d hh mm ss (Some 0) else None.

(** Modelled from the spec: [dateutil.parser.parse] is not part of the
    package sources.  The specification names two accepted grammars,
    RFC-1123 ("Wed, 18 Nov 2020 15:23:52 GMT") and ISO-8601
    ("2020-11-18T15:23:52Z"), the latter possibly with an embedded offset;
    this parser accepts exactly those.  dateutil accepts many more forms,
    so [None] here says nothing about dateutil. *)
Definition parse (raw : string) : option datetime :=
  match rfc1123 raw with
  | Some dt => Some dt
  | None => iso8601 raw
  end.

End Dateutil.

(** ** Instants *)

(** Days between 1970-01-01 and a date of the proleptic Gregorian calendar. *)
Definition days_from_civil (y m d : Z) : Z :=
  let y := if m <=? 2 then y - 1 else y in
  let era := y / 400 in
  let yoe := y - era * 400 in
  let doy := (153 * (if 2 <? m then m - 3 else m + 9) + 2) / 5 + d - 1 in
  let doe := yoe * 365 + yoe / 4 - yoe / 100 + doy in
  era * 146097 + doe - 719468.

(** Microseconds since the epoch of the UTC date and time with the given
    fields. *)
Definition utc_fields_instant (y m d hh mm ss us : nat) : Z :=
  (days_from_civil (Z.of_nat y) (Z.of_nat m) (Z.of_nat d) * 86400
   + Z.of_nat hh * 3600 + Z.of_nat mm * 60 + Z.of_nat ss) * 1000000
  + Z.of_nat us.

(** Microseconds since the epoch of the instant a datetime denotes; a naive
    value is read as UTC, the contract of [parse_utc_timestamp]. *)
Definition instant (dt : datetime) : Z :=
  utc_fields_instant dt.(year) dt.(month) dt.(day)
    dt.(hour) dt.(minute) dt.(second) dt.(microsecond)
  - default 0 dt.(tzinfo) * 1000000.

(** ** Timestamp texts, digit by digit *)

Definition digit_char (d : nat) : ascii :=
  match d with
  | 0%nat => "0"%char | 1%nat => "1"%char | 2%nat => "2"%char
  | 3%nat => "3"%char | 4%nat => "4"%char | 5%nat => "5"%char
  | 6%nat => "6"%char | 7%nat => "7"%char | 8%nat => "8"%char
  | _ => "9"%char
  end.

(** A number below 100 as two digits. *)
Definition two_digits (n : nat) : string :=
  String (digit_char (n / 10)) (String (digit_char (n mod 10)) "").

(** A year up to 9999 in decimal, without leading zeros. *)
Definition year_digits (y : nat) : string :=
  (if (1000 <=? y)%nat then String (digit_char (y / 1000)) "" else "")
  +:+ (if (100 <=? y)%nat then String (digit_char (y / 100 mod 10)) "" else "")
  +:+ (if (10 <=? y)%nat then String (digit_char (y / 10 mod 10)) "" else "")
  +:+ String (digit_char (y mod 10)) "".

(** The text <year>-MM-DDTHH:MM:SSZ of a datetime's calendar and clock
    fields: YYYY-MM-DDTHH:MM:SSZ from the year 1000 on. *)
Definition iso8601_utc_text (dt : datetime) : string :=
  year_digits dt.(year) +:+ "-" +:+ two_digits dt.(month) +:+ "-"
  +:+ two_digits dt.(day) +:+ "T" +:+ two_digits dt.(hour) +:+ ":"
  +:+ two_digits dt.(minute) +:+ ":" +:+ two_digits dt.(second) +:+ "Z".

(** The text <year>MMDDTHHMMSSZ of a datetime's calendar and clock fields:
    YYYYMMDDTHHMMSSZ from the year 1000 on. *)
Definition compact_utc_text (dt : datetime) : string :=
  year_digits dt.(year) +:+ two_digits dt.(month)
  +:+ two_digits dt.(day) +:+ "T" +:+ two_digits dt.(hour)
  +:+ two_digits dt.(minute) +:+ two_digits dt.(second) +:+ "Z".

(** ** scripts/cli.py: the retrieve endpoint and the HTTP error reports *)

Definition watchlist_api_endpoint : string :=
  "https://watchlistapi.icedatavault.icedataservices.com/v1/configurations/watchlists".

(** Truth value of an optional string in [if timestamp:]: [None] and the
    empty string are false. *)
Definition truthy (o : option string) : bool :=
  match o with
  | Some (String _ _) => true
  | _ => false
  end.

Section Cli.

Variable dateutil_parse : string -> option datetime.

(** The endpoint [get_config] sends its GET request to, for the value of
    the [--timestamp] option ([None] when the option is not given). *)
Definition get_config_endpoint (timestamp : option string) : result string :=
  if truthy timestamp then
    iso ← convert_raw_utc_timestamp_to_string dateutil_parse
            (default "" timestamp) default_date_format;
    mret (join_base_url_and_query_string watchlist_api_endpoint
            (prepare_timestamp_query_string iso))
  else mret watchlist_api_endpoint.

End Cli.

(** [s[:n]] *)
Fixpoint take_chars (n : nat) (s : string) : string :=
  match n, s with
  | S k, String c rest => String c (take_chars k rest)
  | _, _ => ""
  end.

(** The [except requests.exceptions.HTTPError] handler shared by both
    commands: what is echoed for the error text [http_error], given the
    command's table of known causes. *)
Definition http_error_report (known_error_causes : gmap string string)
    (http_error : string) : string :=
  let error_type := default "" (Py.split ":" http_error !! 0%nat) in
  let error_code := take_chars 3 error_type in
  match known_error_causes !! error_code with
  | Some cause => error_type +:+ ": " +:+ cause
  | None => error_type
  end.

Definition send_config_known_error_causes : gmap string string :=
  {[ "400" := "Input CSV file is improperly formatted";
     "401" := "Improper credentials";
     "500" := "Failed request" ]}.

Definition get_config_known_error_causes : gmap string string :=
  {[ "401" := "Improper credentials";
     "404" := "No active configuration for the given date and time" ]}.

(** ** config_retriever.py: the name of the written file *)


(** * Vocabulary of the properties *)

(** ** Rows and files *)

Definition not_newline (c : ascii) : bool := negb (Ascii.eqb c Py.newline).

(** The row grammar as the documentation words it: a numeric id of three or
    four digits, a comma, a non-empty symbol over the allowed characters,
    and nothing before or after. *)
Definition row_format (row : string) : Prop :=
  exists id symbol,
    row = id +:+ "," +:+ symbol
    /\ Py.all_chars source_id_char id = true
    /\ (3 <= String.length id <= 4)%nat
    /\ Py.all_chars symbol_char symbol = true
    /\ symbol <> "".

(** The check applied to the row at position [index]. *)
Definition row_check (index : nat) (row : list string) : result unit :=
  match index with
  | O => validate_header (Py.join "," row)
  | S _ => validate_row (Py.join "," row) index
  end.

(** A file whose third row (index 2) is the first malformed one. *)
Definition sample_file : list (list string) :=
  [["sourceId"; "RTSsymbol"]; ["207"; "F:FDAX\Z20"]; ["20"; "ABC"];
   ["x"]; ["673"; "ABC"]].

(** ** The report *)

(** The four kinds of action of a request summary, in report order. *)
Inductive category : Type := Created | Updated | Failed | Deactivated.

Definition categories : list category := [Created; Updated; Failed; Deactivated].

Definition count_key (c : category) : string :=
  match c with
  | Created => "nbCreated" | Updated => "nbUpdated"
  | Failed => "nbFailed" | Deactivated => "nbDeactivated"
  end.

Definition ids_key (c : category) : string :=
  match c with
  | Created => "created" | Updated => "updated"
  | Failed => "failed" | Deactivated => "deactivated"
  end.

Definition count_phrase (c : category) : string :=
  match c with
  | Created => " new sources have been activated"
  | Updated => " existing sources have been updated"
  | Failed => " sources have failed"
  | Deactivated => " existing sources have been deactivated"
  end.

Definition ids_phrase (c : category) : string :=
  match c with
  | Created => "The following sources have been activated: "
  | Updated => "The following sources have been updated: "
  | Failed => "The following sources have failed: "
  | Deactivated => "The following sources have been deactivated: "
  end.

Definition count_line (shown : string) (c : category) : string :=
  "  - " +:+ shown +:+ count_phrase c.

Definition ids_line (c : category) (ids : list string) : string :=
  ids_phrase c +:+ Py.join ", " ids +:+ nl.

(** The opening of the report: the submission time, then the four count
    lines, each showing [shown c]. *)
Definition report_head (time : string) (shown : category -> string) : string :=
  time +:+ nl +:+ nl +:+ "Actions performed as a result of the request:" +:+ nl
  +:+ Py.join nl ((fun c => count_line (shown c) c) <$> categories) +:+ nl +:+ nl.



(** The ID section of a category for an arbitrary mapping: nothing when the
    count is the integer 0; otherwise the line is attempted, and joining
    anything but a list of strings is a [TypeError]. *)
Definition ids_section (rs : RequestSummary) (c : category) : result string :=
  match rs.(summary) !! count_key c with
  | Some (PInt 0) => Ok ""
  | _ =>
      match rs.(summary) !! ids_key c with
      | Some (PList ids) => Ok (ids_line c ids)
      | _ => Raise TypeError
      end
  end.

(** What the count line of a category shows: [str] of the lookup. *)
Definition count_shown (rs : RequestSummary) (c : category) : string :=
  PyVal.str (PyVal.get rs.(summary) (count_key c)).

(** One [if ... != 0:] block of [stringify_response_summary]. *)
Definition ids_block (rs : RequestSummary) (c : category) (acc : string) : result string :=
  if PyVal.ne_zero (PyVal.get rs.(summary) (count_key c)) then
    ids ← PyVal.join_ids (PyVal.get rs.(summary) (ids_key c));
    mret (acc +:+ (ids_phrase c +:+ ids +:+ nl))
  else mret acc.






(** A summary whose [nbCreated] key is missing. *)
Definition missing_count : RequestSummary :=
  {| submission_time := Some "Wed, 18 Nov 2020 10:06:41 GMT";
     summary := {[ "nbUpdated" := PInt 0; "nbFailed" := PInt 0;
                   "nbDeactivated" := PInt 0;
                   "created" := PList ["676"; "680"]; "updated" := PList [];
                   "failed" := PList []; "deactivated" := PList [] ]} |}.

(** ** Timestamps and queries *)

(** [raw] and [out] are read by the parser as the same instant. *)
Definition denotes_same_instant (parse : string -> option datetime)
    (raw out : string) : Prop :=
  exists dt dt',
    parse raw = Some dt /\ parse out = Some dt' /\ instant dt' = instant dt.

(** A fixed-width text form: a decimal digit or a given character per
    position. *)
Inductive slot : Type := Digit | Char (c : ascii).

Fixpoint fits (shape : list slot) (s : string) : bool :=
  match shape, s with
  | [], EmptyString => true
  | Digit :: shape', String c rest => Py.in_range "0" "9" c && fits shape' rest
  | Char x :: shape', String c rest => Ascii.eqb c x && fits shape' rest
  | _, _ => false
  end.

(** YYYY-MM-DDTHH:MM:SSZ *)
Definition iso8601_utc_shape : list slot :=
  [Digit; Digit; Digit; Digit; Char "-"; Digit; Digit; Char "-"; Digit; Digit;
   Char "T"; Digit; Digit; Char ":"; Digit; Digit; Char ":"; Digit; Digit; Char "Z"].

Definition is_iso8601_utc (s : string) : bool := fits iso8601_utc_shape s.

(** The characters that come out of [prepare_timestamp_query_string]
    unchanged. *)
Definition safe_or_colon (c : ascii) : bool :=
  Urllib.always_safe c || Ascii.eqb c ":".

Definition slot_allowed (p : ascii -> bool) (sl : slot) : Prop :=
  match sl with
  | Digit => forall c, Py.in_range "0" "9" c = true -> p c = true
  | Char x => p x = true
  end.

Definition no_equals (s : string) : bool :=
  Py.all_chars (fun c => negb (Ascii.eqb c "=")) s.

Definition watchlists_url : string :=
  "https://watchlistapi.icedatavault.icedataservices.com/v1/configurations/watchlists".

Definition deactivated_response : Response :=
  {| request_url := watchlists_url +:+ "?dateTime=2020-11-18T12:30:52Z";
     headers := {[ "date" := "Fri, 20 Nov 2020 11:47:40 GMT" ]};
     content := [] |}.

(** ** Vocabulary of the further properties *)

(** The invariant of a [datetime.datetime] value: a date of the calendar
    between the years 1 and 9999 and a time of day. *)
Definition valid_datetime (dt : datetime) : Prop :=
  (1 <= dt.(year) < 100 * 100)%nat /\ (1 <= dt.(month) <= 12)%nat
  /\ (1 <= dt.(day) <= Dateutil.days_in_month dt.(year) dt.(month))%nat
  /\ (dt.(hour) < 24)%nat /\ (dt.(minute) < 60)%nat /\ (dt.(second) < 60)%nat.

(** The instant, in microseconds since the epoch, that a text of the form
    YYYY-MM-DDTHH:MM:SSZ denotes. *)
Definition iso8601_utc_instant (text : string) : option Z :=
  '(y, s) ← Dateutil.digits 4 0 text;
  s ← Dateutil.expect "-" s;
  '(m, s) ← Dateutil.digits 2 0 s;
  s ← Dateutil.expect "-" s;
  '(d, s) ← Dateutil.digits 2 0 s;
  s ← Dateutil.expect "T" s;
  '(hh, mm, ss, s) ← Dateutil.clock s;
  if String.eqb s "Z" then Some (utc_fields_instant y m d hh mm ss 0) else None.

(** A datetime with single-digit month, day and clock fields. *)
Definition early_march : datetime :=
  {| year := 2020; month := 3; day := 2; hour := 9; minute := 5;
     second := 7; microsecond := 0; tzinfo := Some 0 |}.

(** Printable ASCII without the space. *)
Definition url_char (c : ascii) : bool :=
  ((33 <=? Ascii.N_of_ascii c) && (Ascii.N_of_ascii c <=? 126))%N.

(** A base URL as the package uses it: printable ASCII, no query, no
    fragment, no bracketed host.  [urlsplit] neither deletes a character
    of such a text nor rejects it. *)
Definition clean_base (base_url : string) : bool :=
  Py.all_chars (fun c => url_char c && negb (Py.mem_chars c "?#[]")) base_url.

(** A query without fragment mark, tab, carriage return and line feed. *)
Definition clean_query (query : string) : bool :=
  Py.all_chars
    (fun c => negb (Ascii.eqb c "#" || Ascii.eqb c (Ascii.ascii_of_nat 9)
                    || Ascii.eqb c (Ascii.ascii_of_nat 10)
                    || Ascii.eqb c (Ascii.ascii_of_nat 13))) query.

(** YYYYMMDDTHHMMSSZ *)
Definition compact_utc_shape : list slot :=
  [Digit; Digit; Digit; Digit; Digit; Digit; Digit; Digit; Char "T";
   Digit; Digit; Digit; Digit; Digit; Digit; Char "Z"].

(** The characters a percent-encoded query value is made of. *)
Definition query_value_char (c : ascii) : bool :=
  Urllib.always_safe c || Py.mem_chars c "%+:".

Definition no_char (x : ascii) (s : string) : bool :=
  Py.all_chars (fun c => negb (Ascii.eqb c x)) s.

(** A base URL without query and fragment. *)
Definition plain_base (base_url : string) : bool :=
  no_char "?" base_url && no_char "#" base_url.

(** A file is accepted when validation raises nothing. *)
Definition accepted (csv_rows : list (list string)) : Prop :=
  (validate_watchlist_configuration_file csv_rows).1 = Ok tt.

(** The header texts and the row texts that pass validation. *)
Definition accepted_header (header : string) : Prop :=
  header = "sourceId,RTSsymbol" \/ header = "sourceId,RTSsymbol" +:+ nl.

Definition accepted_row (row : string) : Prop :=
  exists id symbol tail,
    row = id +:+ "," +:+ symbol +:+ tail
    /\ Py.all_chars source_id_char id = true
    /\ (3 <= String.length id <= 4)%nat
    /\ Py.all_chars symbol_char symbol = true
    /\ symbol <> ""
    /\ (tail = "" \/ tail = nl).

(** A category whose ID section can be built: its count is the integer 0,
    or its ids key holds a list. *)
Definition section_buildable (rs : RequestSummary) (c : category) : Prop :=
  rs.(summary) !! count_key c = Some (PInt 0)
  \/ exists ids, rs.(summary) !! ids_key c = Some (PList ids).

(** What the parser returns for 18 Nov 2020 15:23:52 UTC. *)
Definition sample_datetime : datetime :=
  {| year := 2020; month := 11; day := 18; hour := 15; minute := 23;
     second := 52; microsecond := 0; tzinfo := Some 0 |}.

(** The digits read are the number [n], with nothing left over. *)
Definition reads_as (n : nat) (r : option (nat * string)) : bool :=
  match r with
  | Some (v, rest) => Nat.eqb v n && String.eqb rest ""
  | None => false
  end.


(** The first day of the year 999. *)
Definition year_999 : datetime :=
  {| year := 999; month := 1; day := 1; hour := 0; minute := 0;
     second := 0; microsecond := 0; tzinfo := Some 0 |}.

(** * Properties *)

(** ** Strings *)

Lemma append_cons (c : ascii) (s t : string) : String c s +:+ t = String c (s +:+ t).
Proof. reflexivity. Qed.

Lemma append_empty_l (s : string) : "" +:+ s = s.
Proof. reflexivity. Qed.

Lemma append_empty_r (s : string) : s +:+ "" = s.
Proof. induction s as [|c s IH]; [reflexivity|]. rewrite append_cons. by f_equal. Qed.

Lemma append_assoc (s t u : string) : (s +:+ t) +:+ u = s +:+ (t +:+ u).
Proof.
  induction s as [|c s IH]; [reflexivity|].
  rewrite !append_cons. by f_equal.
Qed.

Lemma length_append (s t : string) :
  String.length (s +:+ t) = (String.length s + String.length t)%nat.
Proof.
  induction s as [|c s IH]; [reflexivity|].
  rewrite append_cons. simpl. by rewrite IH.
Qed.

Lemma ascii_eqb_true (a b : ascii) : Ascii.eqb a b = true <-> a = b.
Proof. apply Ascii.eqb_eq. Qed.

Lemma strip_prefix_Some (p s r : string) :
  Py.strip_prefix p s = Some r <-> s = p +:+ r.
Proof.
  revert s. induction p as [|a p IH]; intros s; simpl.
  - rewrite append_empty_l. split; [by intros [= ->] | by intros ->].
  - destruct s as [|b s]; [by rewrite append_cons|].
    rewrite append_cons. destruct (Ascii.eqb a b) eqn:Hab.
    + apply ascii_eqb_true in Hab as ->. rewrite IH.
      split; [by intros -> | by intros [= ->]].
    + apply Ascii.eqb_neq in Hab. split; [done | by intros [= <- _]].
Qed.

Lemma all_chars_append (p : ascii -> bool) (s t : string) :
  Py.all_chars p (s +:+ t) = Py.all_chars p s && Py.all_chars p t.
Proof.
  induction s as [|c s IH]; [reflexivity|].
  rewrite append_cons. simpl. rewrite IH. by rewrite andb_assoc.
Qed.

(** ** The regular-expression fragment *)

Lemma at_eol_iff (s : string) : Re.at_eol s = true <-> s = "" \/ s = nl.
Proof.
  destruct s as [|c [|d s]]; simpl.
  - split; [by left | done].
  - rewrite ascii_eqb_true. unfold nl. split.
    + intros ->. by right.
    + by intros [?|[= ->]].
  - split; [done | by intros [?|?]].
Qed.

(** What a bounded repetition of a class consumes: some prefix of class
    characters whose length lies within the bounds. *)
Lemma match_rep_iff cls k (s : string) : forall lo hi pos,
  Re.match_rep cls k lo hi pos s = true <->
  exists pre post,
    s = pre +:+ post /\ Py.all_chars cls pre = true
    /\ (lo <= String.length pre)%nat
    /\ (forall h, hi = Some h -> (String.length pre <= h)%nat)
    /\ k (pos + String.length pre)%nat post = true.
Proof.
  induction s as [|c s IH]; intros lo hi pos; simpl.
  - rewrite andb_true_iff, Nat.eqb_eq. split.
    + intros [-> Hk]. exists "", "". rewrite Nat.add_0_r.
      repeat split; [lia | intros; simpl; lia | done].
    + intros ([|? ?] & post & Heq & _ & Hlo & _ & Hk); [|done].
      destruct post; [|done]. simpl in *. rewrite Nat.add_0_r in Hk.
      split; [lia | done].
  - rewrite orb_true_iff, !andb_true_iff, Nat.eqb_eq, IH. split.
    + intros [[[Hc Hmay] (pre & post & -> & Hall & Hlo & Hhi & Hk)] | [-> Hk]].
      * exists (String c pre), post. simpl. rewrite Hc, Hall.
        repeat split; [lia | | by rewrite <- Nat.add_succ_comm].
        intros h ->. simpl in *. destruct h as [|h]; [done|].
        specialize (Hhi h eq_refl). lia.
      * exists "", (String c s). rewrite Nat.add_0_r.
        repeat split; [lia | intros; simpl; lia | done].
    + intros ([|a pre] & post & Heq & Hall & Hlo & Hhi & Hk).
      * right. simpl in *. rewrite append_empty_l in Heq. subst post.
        rewrite Nat.add_0_r in Hk. split; [lia | done].
      * left. rewrite append_cons in Heq. injection Heq as <- ->.
        simpl in Hall. apply andb_true_iff in Hall as [Hc Hall].
        simpl in Hlo, Hk. repeat split; [done | |].
        -- destruct hi as [[|h]|]; [|done..].
           specialize (Hhi 0%nat eq_refl). simpl in Hhi. lia.
        -- exists pre, post. repeat split; [done | lia | | by rewrite Nat.add_succ_comm].
           intros h Hh. destruct hi as [h'|]; [|done]. simpl in Hh.
           injection Hh as <-. specialize (Hhi h' eq_refl). simpl in Hhi. lia.
Qed.

Lemma re_match_header (header : string) :
  Re.re_match header_pattern header =
  match Py.strip_prefix "sourceId,RTSsymbol" header with
  | Some rest => Re.at_eol rest
  | None => false
  end.
Proof.
  unfold Re.re_match, header_pattern. cbn [Re.match_atoms Nat.eqb andb].
  destruct (Py.strip_prefix _ header); [apply andb_true_r | reflexivity].
Qed.

Lemma re_match_row (row : string) :
  Re.re_match row_pattern row =
  Re.match_rep source_id_char
    (fun pos s =>
       match Py.strip_prefix "," s with
       | Some rest =>
           Re.match_rep symbol_char (fun _ s' => Re.at_eol s' && true) 1 None
             (pos + 1) rest
       | None => false
       end) 3 (Some 4%nat) 0 row.
Proof. reflexivity. Qed.

(** [validate_header] accepts the header text and the header text followed
    by one newline, nothing else. *)
Lemma validate_header_accepts_iff (header : string) :
  validate_header header = Ok tt <->
  header = "sourceId,RTSsymbol" \/ header = "sourceId,RTSsymbol" +:+ nl.
Proof.
  unfold validate_header. rewrite re_match_header.
  destruct (Py.strip_prefix "sourceId,RTSsymbol" header) as [rest|] eqn:Hp.
  - apply strip_prefix_Some in Hp as ->.
    destruct (Re.at_eol rest) eqn:He; cbn [negb].
    + apply at_eol_iff in He as [-> | ->]; split; auto.
    + split; [done|]. assert (~ (rest = "" \/ rest = nl)) as Hn.
      { rewrite <- at_eol_iff. by rewrite He. }
      intros [H|H]; exfalso; apply Hn.
      * left. apply (inj (String.app "sourceId,RTSsymbol")).
        by rewrite append_empty_r.
      * right. by apply (inj (String.app "sourceId,RTSsymbol")).
  - cbn [negb]. split; [done|]. intros [-> | ->]; vm_compute in Hp; done.
Qed.

(** [validate_row] accepts an id of three or four digits, a comma and a
    non-empty symbol over the allowed characters, optionally followed by one
    newline, and nothing else. *)
Lemma validate_row_accepts_iff (row : string) (row_index : nat) :
  validate_row row row_index = Ok tt <->
  exists id symbol tail,
    row = id +:+ "," +:+ symbol +:+ tail
    /\ Py.all_chars source_id_char id = true
    /\ (3 <= String.length id <= 4)%nat
    /\ Py.all_chars symbol_char symbol = true
    /\ symbol <> ""
    /\ (tail = "" \/ tail = nl).
Proof.
  unfold validate_row. rewrite re_match_row.
  match goal with |- context [negb ?m] => destruct m eqn:Hm end; cbn [negb].
  - split; [intros _ | done].
    apply match_rep_iff in Hm as (id & post & -> & Hid & Hlo & Hhi & Hk).
    destruct (Py.strip_prefix "," post) as [rest|] eqn:Hp; [|done].
    apply strip_prefix_Some in Hp as ->.
    apply match_rep_iff in Hk as (symbol & tail & -> & Hsym & Hlen & _ & Hk).
    rewrite andb_true_r in Hk. apply at_eol_iff in Hk.
    exists id, symbol, tail.
    split_and!; [done | done | done | by apply (Hhi 4%nat) | done | | done].
    intros ->. simpl in Hlen. lia.
  - split; [done|]. intros (id & symbol & tail & -> & Hid & [Hlo Hhi] & Hsym & Hne & Htail).
    exfalso. apply not_true_iff_false in Hm. apply Hm.
    apply match_rep_iff. exists id, ("," +:+ symbol +:+ tail).
    repeat split; [done | done | by intros h [= <-] |].
    replace (Py.strip_prefix "," ("," +:+ symbol +:+ tail)) with (Some (symbol +:+ tail))
      by (symmetry; by apply strip_prefix_Some).
    apply match_rep_iff. exists symbol, tail.
    repeat split; [done | | done |].
    + destruct symbol; [done | simpl; lia].
    + rewrite andb_true_r. by apply at_eol_iff.
Qed.

Lemma all_chars_impl (p q : ascii -> bool) (s : string) :
  (forall c, p c = true -> q c = true) ->
  Py.all_chars p s = true -> Py.all_chars q s = true.
Proof.
  intros Hpq. induction s as [|c s IH]; [done|]. simpl.
  rewrite !andb_true_iff. intros [Hc Hs]. split; [by apply Hpq | by apply IH].
Qed.

Lemma source_id_char_not_newline (c : ascii) :
  source_id_char c = true -> not_newline c = true.
Proof. destruct c as [[] [] [] [] [] [] [] []]; by vm_compute. Qed.

Lemma symbol_char_not_newline (c : ascii) :
  symbol_char c = true -> not_newline c = true.
Proof. destruct c as [[] [] [] [] [] [] [] []]; by vm_compute. Qed.

Lemma row_format_no_newline (row : string) :
  row_format row -> Py.all_chars not_newline row = true.
Proof.
  intros (id & symbol & -> & Hid & _ & Hsym & _).
  rewrite !all_chars_append, !andb_true_iff. split_and!.
  - by apply (all_chars_impl source_id_char), Hid; apply source_id_char_not_newline.
  - reflexivity.
  - by apply (all_chars_impl symbol_char), Hsym; apply symbol_char_not_newline.
Qed.

(** Every row of the documented form is accepted. *)
Lemma validate_row_accepts_row_format (row : string) (row_index : nat) :
  row_format row -> validate_row row row_index = Ok tt.
Proof.
  intros (id & symbol & -> & Hid & Hlen & Hsym & Hne).
  apply validate_row_accepts_iff. exists id, symbol, "".
  rewrite append_empty_r. split_and!; try done; [lia.. | by left].
Qed.

(** ** C2, C3, C4: row and header validation *)

(** C2 (defect in the code).  The documented grammar leaves nothing after
    the symbol, yet [validate_row] accepts a well-formed row followed by a
    newline: [$] also matches just before a final newline.  The row
    "207,F:FDAX\Z20" followed by a newline is accepted and is not of the
    documented form. *)
Theorem validate_row_accepts_trailing_newline :
  validate_row ("207,F:FDAX\Z20" +:+ nl) 1 = Ok tt
  /\ ~ row_format ("207,F:FDAX\Z20" +:+ nl).
Proof.
  split; [reflexivity|].
  intros H%row_format_no_newline. by vm_compute in H.
Qed.

(** C3.  [validate_row] accepts "207,F:FDAX\Z20", and rejects both
    "207, F:FDAX\Z20" (a space after the comma) and "207,F:FDAX??Z20"
    (question marks in the symbol) with [ImproperFileFormat], whatever the
    row index. *)
Theorem validate_row_examples (row_index : nat) :
  validate_row "207,F:FDAX\Z20" row_index = Ok tt
  /\ validate_row "207, F:FDAX\Z20" row_index
     = Raise (ImproperFileFormat
                ("Line " +:+ Py.str_of_nat row_index +:+ " - Improperly formatted"))
  /\ validate_row "207,F:FDAX??Z20" row_index
     = Raise (ImproperFileFormat
                ("Line " +:+ Py.str_of_nat row_index +:+ " - Improperly formatted")).
Proof. split_and!; reflexivity. Qed.

(** C4 (defect in the code).  The header is required to be exactly
    "sourceId,RTSsymbol", yet [validate_header] also accepts that text
    followed by a newline, a different string; the case variant
    "SourceID,RTSSymbol" is rejected as documented. *)
Theorem validate_header_accepts_trailing_newline :
  validate_header ("sourceId,RTSsymbol" +:+ nl) = Ok tt
  /\ "sourceId,RTSsymbol" +:+ nl <> "sourceId,RTSsymbol"
  /\ validate_header "sourceId,RTSsymbol" = Ok tt
  /\ validate_header "SourceID,RTSSymbol"
     = Raise (ImproperFileFormat "Improperly formatted header").
Proof. split_and!; [reflexivity | by vm_compute | reflexivity | reflexivity]. Qed.

(** ** C6: validation of a whole file *)

Lemma validate_rows_step (index : nat) (row : list string) (unread : list (list string)) :
  validate_rows index (row :: unread) =
  match row_check index row with
  | Ok _ => validate_rows (S index) unread
  | Raise e => (Raise e, unread)
  end.
Proof. by destruct index. Qed.

Lemma validate_rows_all_pass (rows : list (list string)) : forall start,
  (forall i row, rows !! i = Some row -> row_check (start + i) row = Ok tt) ->
  validate_rows start rows = (Ok tt, []).
Proof.
  induction rows as [|row rows IH]; intros start Hall; [done|].
  rewrite validate_rows_step.
  specialize (Hall 0%nat row eq_refl) as H0. rewrite Nat.add_0_r in H0. rewrite H0.
  apply IH. intros i r Hi. rewrite Nat.add_succ_comm. by apply (Hall (S i)).
Qed.

Lemma validate_rows_first_failure (rows : list (list string)) : forall start i row e,
  rows !! i = Some row ->
  row_check (start + i) row = Raise e ->
  (forall j r, (j < i)%nat -> rows !! j = Some r -> row_check (start + j) r = Ok tt) ->
  validate_rows start rows = (Raise e, drop (S i) rows).
Proof.
  induction rows as [|r0 rows IH]; intros start i row e Hi He Hbefore; [done|].
  rewrite validate_rows_step. destruct i as [|i].
  - injection Hi as ->. rewrite Nat.add_0_r in He. by rewrite He.
  - specialize (Hbefore 0%nat r0 ltac:(lia) eq_refl) as H0.
    rewrite Nat.add_0_r in H0. rewrite H0.
    apply (IH (S start) i row e); [done | by rewrite Nat.add_succ_comm |].
    intros j r Hj Hr. rewrite Nat.add_succ_comm. apply (Hbefore (S j)); [lia | done].
Qed.

Lemma row_check_error (index : nat) (row : list string) (e : exn) :
  row_check index row = Raise e ->
  e = ImproperFileFormat
        (match index with
         | O => "Improperly formatted header"
         | S _ => "Line " +:+ Py.str_of_nat index +:+ " - Improperly formatted"
         end).
Proof.
  destruct index; unfold row_check, validate_header, validate_row;
    match goal with |- context [negb ?m] => destruct (negb m) end; congruence.
Qed.

(** C6.  For a file read as a sequence of rows, row 0 is checked by
    [validate_header] on its fields joined by commas and row [i >= 1] by
    [validate_row] on its joined fields with index [i].  If every row passes,
    validation succeeds with all rows read.  Otherwise it stops at the first
    failing row [i]: the single error raised is that row's (the header
    message for row 0, "Line i" for a data row), and the rows after [i]
    are left unread in the reader. *)
Theorem validate_file_fail_fast (csv_rows : list (list string)) :
  (forall header, row_check 0 header = validate_header (Py.join "," header))
  /\ (forall i row, (1 <= i)%nat -> row_check i row = validate_row (Py.join "," row) i)
  /\ ((forall i row, csv_rows !! i = Some row -> row_check i row = Ok tt) ->
      validate_watchlist_configuration_file csv_rows = (Ok tt, []))
  /\ (forall i row e,
        csv_rows !! i = Some row ->
        row_check i row = Raise e ->
        (forall j r, (j < i)%nat -> csv_rows !! j = Some r -> row_check j r = Ok tt) ->
        validate_watchlist_configuration_file csv_rows = (Raise e, drop (S i) csv_rows)
        /\ e = ImproperFileFormat
                 (match i with
                  | O => "Improperly formatted header"
                  | S _ => "Line " +:+ Py.str_of_nat i +:+ " - Improperly formatted"
                  end)).
Proof.
  split_and!.
  - done.
  - intros [|i] row Hi; [lia | done].
  - intros Hall. by apply validate_rows_all_pass.
  - intros i row e Hi He Hbefore. split.
    + by apply (validate_rows_first_failure csv_rows 0 i row e).
    + by apply (row_check_error i row).
Qed.

Lemma validate_file_fail_fast_witness :
  validate_watchlist_configuration_file sample_file
  = (Raise (ImproperFileFormat "Line 2 - Improperly formatted"), [["x"]; ["673"; "ABC"]]).
Proof.
  destruct (validate_file_fail_fast sample_file) as (_ & _ & _ & Hfail).
  destruct (Hfail 2%nat ["20"; "ABC"] _ eq_refl eq_refl) as [Hrun _].
  - intros [|[|j]] r Hj Hr; [| | lia]; injection Hr as <-; reflexivity.
  - exact Hrun.
Defined.

(** ** C10: credentials *)

(** C10.  Credential validation accepts every pair of strings, the empty
    ones included.  The presence check fails exactly when a component is
    [None], naming the missing one (or both); the type check fails exactly
    when both are present and one is not a string. *)
Theorem validate_credentials_cases :
  (forall u p, validate_credentials (CStr u, CStr p) = Ok tt)
  /\ validate_credentials (CStr "", CStr "") = Ok tt
  /\ (forall c1 c2,
        validate_credentials_presence (c1, c2) =
        match c1, c2 with
        | CNone, CNone => Raise (MissingOnyxCredentialsError "Missing username and password")
        | CNone, _ => Raise (MissingOnyxCredentialsError "Missing username")
        | _, CNone => Raise (MissingOnyxCredentialsError "Missing password")
        | _, _ => Ok tt
        end)
  /\ (forall c1 c2,
        validate_credentials_type (c1, c2) =
        match c1, c2 with
        | CStr _, CStr _ => Ok tt
        | _, _ => Raise InvalidOnyxCredentialTypeError
        end)
  /\ (forall c1 c2,
        validate_credentials (c1, c2) =
        match c1, c2 with
        | CNone, CNone => Raise (MissingOnyxCredentialsError "Missing username and password")
        | CNone, _ => Raise (MissingOnyxCredentialsError "Missing username")
        | _, CNone => Raise (MissingOnyxCredentialsError "Missing password")
        | CStr _, CStr _ => Ok tt
        | _, _ => Raise InvalidOnyxCredentialTypeError
        end).
Proof.
  split_and!; [done | done | ..]; intros [] []; reflexivity.
Qed.

(** ** C5, C9: the report *)

Lemma stringify_blocks (rs : RequestSummary) :
  stringify_response_summary rs =
  (s ← ids_block rs Created
         (PyVal.str_opt rs.(submission_time) +:+ nl +:+ nl
          +:+ "Actions performed as a result of the request:" +:+ nl
          +:+ "  - " +:+ count_shown rs Created +:+ count_phrase Created +:+ nl
          +:+ "  - " +:+ count_shown rs Updated +:+ count_phrase Updated +:+ nl
          +:+ "  - " +:+ count_shown rs Failed +:+ count_phrase Failed +:+ nl
          +:+ "  - " +:+ count_shown rs Deactivated +:+ count_phrase Deactivated
          +:+ nl +:+ nl);
   s ← ids_block rs Updated s;
   s ← ids_block rs Failed s;
   s ← ids_block rs Deactivated s;
   mret s).
Proof. reflexivity. Qed.

Lemma report_head_unfold (time : string) (shown : category -> string) :
  report_head time shown =
  time +:+ nl +:+ nl
  +:+ "Actions performed as a result of the request:" +:+ nl
  +:+ "  - " +:+ shown Created +:+ count_phrase Created +:+ nl
  +:+ "  - " +:+ shown Updated +:+ count_phrase Updated +:+ nl
  +:+ "  - " +:+ shown Failed +:+ count_phrase Failed +:+ nl
  +:+ "  - " +:+ shown Deactivated +:+ count_phrase Deactivated
  +:+ nl +:+ nl.
Proof.
  unfold report_head, categories, count_line.
  cbn [fmap list_fmap Py.join]. by rewrite !append_assoc.
Qed.

Lemma ids_block_section (rs : RequestSummary) (c : category) (acc : string) :
  ids_block rs c acc = (s ← ids_section rs c; mret (acc +:+ s)).
Proof.
  unfold ids_block, ids_section, PyVal.get, ids_line.
  destruct (summary rs !! count_key c) as [[| [|n|n] |items]|];
    destruct (summary rs !! ids_key c) as [[|m|ids]|];
    cbn; by rewrite ?append_empty_r.
Qed.

(** The report is its opening followed by the four ID sections in the order
    created, updated, failed, deactivated; the first section that cannot be
    built aborts the call. *)
Lemma stringify_sections (rs : RequestSummary) :
  stringify_response_summary rs =
  (s1 ← ids_section rs Created;
   s2 ← ids_section rs Updated;
   s3 ← ids_section rs Failed;
   s4 ← ids_section rs Deactivated;
   mret (report_head (PyVal.str_opt rs.(submission_time)) (count_shown rs)
         +:+ s1 +:+ s2 +:+ s3 +:+ s4)).
Proof.
  rewrite stringify_blocks, report_head_unfold, ids_block_section.
  destruct (ids_section rs Created) as [s1|e]; [|done]. cbn.
  rewrite ids_block_section.
  destruct (ids_section rs Updated) as [s2|e]; [|done]. cbn.
  rewrite ids_block_section.
  destruct (ids_section rs Failed) as [s3|e]; [|done]. cbn.
  rewrite ids_block_section.
  destruct (ids_section rs Deactivated) as [s4|e]; [|done]. cbn.
  unfold mret, result_ret. f_equal. by rewrite !append_assoc.
Qed.

Lemma ids_line_not_empty (c : category) (ids : list string) : ids_line c ids <> "".
Proof. by destruct c. Qed.



(** C9.  In [stringify_response_summary] the ID line of a category is
    omitted exactly when the lookup of its count key is the integer 0, and is
    attempted in every other case.  When a count key is absent the lookup is
    [None], the count line shows "None", and the ID line is still attempted:
    it is emitted when the ids key holds a list and the call fails with a
    [TypeError] otherwise. *)
Theorem stringify_missing_count (rs : RequestSummary) :
  stringify_response_summary rs =
    (s1 ← ids_section rs Created;
     s2 ← ids_section rs Updated;
     s3 ← ids_section rs Failed;
     s4 ← ids_section rs Deactivated;
     mret (report_head (PyVal.str_opt rs.(submission_time)) (count_shown rs)
           +:+ s1 +:+ s2 +:+ s3 +:+ s4))
  /\ (forall c, ids_section rs c = Ok "" <-> rs.(summary) !! count_key c = Some (PInt 0))
  /\ (forall c,
        rs.(summary) !! count_key c = None ->
        PyVal.get rs.(summary) (count_key c) = PNone
        /\ PyVal.ne_zero (PyVal.get rs.(summary) (count_key c)) = true
        /\ count_line (count_shown rs c) c = "  - None" +:+ count_phrase c
        /\ ids_section rs c =
           match rs.(summary) !! ids_key c with
           | Some (PList ids) => Ok (ids_line c ids)
           | _ => Raise TypeError
           end).
Proof.
  split_and!.
  - apply stringify_sections.
  - intros c. unfold ids_section. split.
    + destruct (summary rs !! count_key c) as [[| [|n|n] |items]|]; try done;
        destruct (summary rs !! ids_key c) as [[|m|ids]|]; try done;
        intros [= H]; by apply ids_line_not_empty in H.
    + by intros ->.
  - intros c Hc. unfold count_shown, PyVal.get, ids_section. rewrite Hc. done.
Qed.

Lemma stringify_missing_count_witness :
  PyVal.get missing_count.(summary) "nbCreated" = PNone
  /\ count_line (count_shown missing_count Created) Created
     = "  - None new sources have been activated"
  /\ ids_section missing_count Created
     = Ok ("The following sources have been activated: 676, 680" +:+ nl).
Proof.
  destruct (stringify_missing_count missing_count) as (_ & _ & H).
  destruct (H Created eq_refl) as (Hget & _ & Hline & Hsection).
  split_and!; [exact Hget | exact Hline | exact Hsection].
Defined.

(** What the call returns on the summary without [nbCreated]. *)
Lemma missing_count_report :
  stringify_response_summary missing_count
  = Ok ("Wed, 18 Nov 2020 10:06:41 GMT" +:+ nl +:+ nl
        +:+ "Actions performed as a result of the request:" +:+ nl
        +:+ "  - None new sources have been activated" +:+ nl
        +:+ "  - 0 existing sources have been updated" +:+ nl
        +:+ "  - 0 sources have failed" +:+ nl
        +:+ "  - 0 existing sources have been deactivated" +:+ nl +:+ nl
        +:+ "The following sources have been activated: 676, 680" +:+ nl).
Proof. reflexivity. Qed.

(** With neither [nbCreated] nor [created], the attempted join fails. *)
Lemma missing_count_and_ids_type_error :
  stringify_response_summary
    {| submission_time := None; summary := {[ "nbUpdated" := PInt 0 ]} |}
  = Raise TypeError.
Proof. reflexivity. Qed.


(** ** Timestamp texts *)

Lemma bounded_check (P : nat -> bool) (bound : nat) :
  forallb P (seq 0 bound) = true -> forall n, (n < bound)%nat -> P n = true.
Proof.
  intros Hall n Hn. rewrite forallb_forall in Hall.
  apply Hall, in_seq. lia.
Qed.

(** The two-digit fields of [strftime] are the two decimal digits. *)
Lemma padded_two_digits (n : nat) :
  (n < 100)%nat -> Strftime.padded 2 n = two_digits n.
Proof.
  intros Hn. apply String.eqb_eq.
  revert n Hn.
  apply (bounded_check (fun n => String.eqb (Strftime.padded 2 n) (two_digits n))).
  by vm_compute.
Qed.

(** [str] of a year is its decimal digits. *)
Lemma str_of_nat_year_digits (y : nat) :
  (y < 100 * 100)%nat -> Py.str_of_nat y = year_digits y.
Proof.
  intros Hy. apply String.eqb_eq.
  revert y Hy.
  apply (bounded_check (fun y => String.eqb (Py.str_of_nat y) (year_digits y))).
  by vm_compute.
Qed.

Lemma valid_datetime_bounds (dt : datetime) :
  valid_datetime dt ->
  (dt.(year) < 100 * 100)%nat /\ (dt.(month) < 100)%nat /\ (dt.(day) < 100)%nat
  /\ (dt.(hour) < 100)%nat /\ (dt.(minute) < 100)%nat /\ (dt.(second) < 100)%nat.
Proof.
  unfold valid_datetime. intros (Hy & Hm & Hd & HH & HM & HS).
  assert (Dateutil.days_in_month (year dt) (month dt) <= 31)%nat.
  { unfold Dateutil.days_in_month.
    destruct (month dt) as [|[|[|[|[|[|[|[|[|[|[|[|?]]]]]]]]]]]];
      try destruct (Dateutil.is_leap _); lia. }
  lia.
Qed.

Lemma strftime_default_format (dt : datetime) :
  valid_datetime dt ->
  Strftime.strftime dt default_date_format = Ok (iso8601_utc_text dt).
Proof.
  intros (Hy & Hm & Hd & HH & HM & HS)%valid_datetime_bounds.
  change (Strftime.strftime dt default_date_format)
    with (Ok (Py.str_of_nat dt.(year) +:+ "-" +:+ Strftime.padded 2 dt.(month)
              +:+ "-" +:+ Strftime.padded 2 dt.(day) +:+ "T"
              +:+ Strftime.padded 2 dt.(hour) +:+ ":"
              +:+ Strftime.padded 2 dt.(minute) +:+ ":"
              +:+ Strftime.padded 2 dt.(second) +:+ "Z")).
  unfold iso8601_utc_text.
  by rewrite str_of_nat_year_digits, !padded_two_digits.
Qed.

Lemma strftime_compact_format (dt : datetime) :
  valid_datetime dt ->
  Strftime.strftime dt "%Y%m%dT%H%M%SZ" = Ok (compact_utc_text dt).
Proof.
  intros (Hy & Hm & Hd & HH & HM & HS)%valid_datetime_bounds.
  change (Strftime.strftime dt "%Y%m%dT%H%M%SZ")
    with (Ok (Py.str_of_nat dt.(year) +:+ Strftime.padded 2 dt.(month)
              +:+ Strftime.padded 2 dt.(day) +:+ "T"
              +:+ Strftime.padded 2 dt.(hour)
              +:+ Strftime.padded 2 dt.(minute)
              +:+ Strftime.padded 2 dt.(second) +:+ "Z")).
  unfold compact_utc_text.
  by rewrite str_of_nat_year_digits, !padded_two_digits.
Qed.

Lemma valid_replace_tzinfo (dt : datetime) (tz : option Z) :
  valid_datetime dt -> valid_datetime (replace_tzinfo dt tz).
Proof. done. Qed.

Lemma convert_default_format (parse : string -> option datetime)
    (raw : string) (dt : datetime) :
  parse raw = Some dt -> valid_datetime dt ->
  convert_raw_utc_timestamp_to_string parse raw default_date_format
  = Ok (iso8601_utc_text dt).
Proof.
  intros Hparse Hvalid.
  unfold convert_raw_utc_timestamp_to_string, parse_utc_timestamp.
  rewrite Hparse. cbn [mbind result_bind]. unfold format_utc_timestamp.
  by rewrite (strftime_default_format _ (valid_replace_tzinfo dt tzutc Hvalid)).
Qed.

Lemma convert_compact_format (parse : string -> option datetime)
    (raw : string) (dt : datetime) :
  parse raw = Some dt -> valid_datetime dt ->
  convert_raw_utc_timestamp_to_string parse raw "%Y%m%dT%H%M%SZ"
  = Ok (compact_utc_text dt).
Proof.
  intros Hparse Hvalid.
  unfold convert_raw_utc_timestamp_to_string, parse_utc_timestamp.
  rewrite Hparse. cbn [mbind result_bind]. unfold format_utc_timestamp.
  by rewrite (strftime_compact_format _ (valid_replace_tzinfo dt tzutc Hvalid)).
Qed.

Lemma convert_rejected (parse : string -> option datetime)
    (raw date_format : string) :
  parse raw = None ->
  convert_raw_utc_timestamp_to_string parse raw date_format
  = Raise (ParserError raw).
Proof.
  intros Hparse. unfold convert_raw_utc_timestamp_to_string, parse_utc_timestamp.
  by rewrite Hparse.
Qed.

Lemma fits_append (shape1 shape2 : list slot) (s2 : string) : forall s1,
  fits shape1 s1 = true -> fits shape2 s2 = true ->
  fits (shape1 ++ shape2) (s1 +:+ s2) = true.
Proof.
  induction shape1 as [|sl shape1 IH]; intros [|c s1] H1 H2; try done.
  - by destruct sl.
  - rewrite append_cons. destruct sl as [|x]; simpl in *;
      apply andb_true_iff in H1 as [-> H1]; by apply IH.
Qed.

Lemma fits_length (shape : list slot) : forall s,
  fits shape s = true -> String.length s = length shape.
Proof.
  induction shape as [|sl shape IH]; intros [|c s] H; try done.
  - by destruct sl.
  - destruct sl; simpl in *; apply andb_true_iff in H as [_ H]; by rewrite (IH s H).
Qed.

Lemma digit_char_digit (d : nat) : Py.in_range "0" "9" (digit_char d) = true.
Proof. by do 10 (destruct d as [|d]; [done|]). Qed.

Lemma two_digits_fits (n : nat) : fits [Digit; Digit] (two_digits n) = true.
Proof.
  unfold two_digits. cbn [fits]. by rewrite !digit_char_digit.
Qed.

Lemma year_digits_four (y : nat) :
  (1000 <= y)%nat ->
  year_digits y
  = String (digit_char (y / 1000))
      (String (digit_char (y / 100 mod 10))
         (String (digit_char (y / 10 mod 10)) (String (digit_char (y mod 10)) ""))).
Proof.
  intros Hy. unfold year_digits.
  assert ((1000 <=? y)%nat = true) as -> by (apply Nat.leb_le; lia).
  assert ((100 <=? y)%nat = true) as -> by (apply Nat.leb_le; lia).
  assert ((10 <=? y)%nat = true) as -> by (apply Nat.leb_le; lia).
  reflexivity.
Qed.

Lemma year_digits_fits (y : nat) :
  (1000 <= y)%nat -> fits [Digit; Digit; Digit; Digit] (year_digits y) = true.
Proof.
  intros Hy. rewrite (year_digits_four y Hy). cbn [fits].
  by rewrite !digit_char_digit.
Qed.

Lemma year_digits_length (y : nat) :
  String.length (year_digits y) = 4%nat <-> (1000 <= y)%nat.
Proof.
  split.
  - unfold year_digits. intros Hlen.
    destruct (1000 <=? y)%nat eqn:H1; [by apply Nat.leb_le|].
    rewrite !length_append in Hlen.
    destruct (100 <=? y)%nat, (10 <=? y)%nat; simpl in Hlen; lia.
  - intros Hy. by rewrite (year_digits_four y Hy).
Qed.

(** From the year 1000 on the texts have the fixed forms. *)
Lemma iso8601_utc_text_shape (dt : datetime) :
  (1000 <= dt.(year))%nat -> is_iso8601_utc (iso8601_utc_text dt) = true.
Proof.
  intros Hy. unfold is_iso8601_utc, iso8601_utc_text.
  change iso8601_utc_shape with
    ([Digit; Digit; Digit; Digit] ++ [Char "-"] ++ [Digit; Digit] ++ [Char "-"]
     ++ [Digit; Digit] ++ [Char "T"] ++ [Digit; Digit] ++ [Char ":"]
     ++ [Digit; Digit] ++ [Char ":"] ++ [Digit; Digit] ++ [Char "Z"]).
  repeat (apply fits_append;
          [first [by apply year_digits_fits | apply two_digits_fits | reflexivity]|]).
  reflexivity.
Qed.

Lemma compact_utc_text_shape (dt : datetime) :
  (1000 <= dt.(year))%nat -> fits compact_utc_shape (compact_utc_text dt) = true.
Proof.
  intros Hy. unfold compact_utc_text.
  change compact_utc_shape with
    ([Digit; Digit; Digit; Digit] ++ [Digit; Digit] ++ [Digit; Digit] ++ [Char "T"]
     ++ [Digit; Digit] ++ [Digit; Digit] ++ [Digit; Digit] ++ [Char "Z"]).
  repeat (apply fits_append;
          [first [by apply year_digits_fits | apply two_digits_fits | reflexivity]|]).
  reflexivity.
Qed.

Lemma iso8601_utc_text_length (dt : datetime) :
  String.length (iso8601_utc_text dt)
  = (String.length (year_digits dt.(year)) + 16)%nat.
Proof. unfold iso8601_utc_text. rewrite !length_append. simpl. lia. Qed.

Lemma compact_utc_text_length (dt : datetime) :
  String.length (compact_utc_text dt)
  = (String.length (year_digits dt.(year)) + 12)%nat.
Proof. unfold compact_utc_text. rewrite !length_append. simpl. lia. Qed.

(** ** Reading a timestamp text back *)

Lemma digits_append (n : nat) : forall acc s v r t,
  Dateutil.digits n acc s = Some (v, r) ->
  Dateutil.digits n acc (s +:+ t) = Some (v, r +:+ t).
Proof.
  induction n as [|n IH]; intros acc s v r t; cbn [Dateutil.digits].
  - by intros [= -> ->].
  - destruct s as [|c s]; [done|]. rewrite append_cons.
    destruct (Py.in_range "0" "9" c); [|done]. apply IH.
Qed.

Lemma reads_as_true (n : nat) (r : option (nat * string)) :
  reads_as n r = true -> r = Some (n, "").
Proof.
  destruct r as [[v rest]|]; [|done]. cbn [reads_as].
  rewrite andb_true_iff, Nat.eqb_eq, String.eqb_eq. by intros [-> ->].
Qed.

Lemma digits_two_digits (n : nat) (rest : string) :
  (n < 100)%nat -> Dateutil.digits 2 0 (two_digits n +:+ rest) = Some (n, rest).
Proof.
  intros Hn. apply (digits_append 2 0 (two_digits n) n "" rest), reads_as_true.
  revert n Hn.
  apply (bounded_check (fun n => reads_as n (Dateutil.digits 2 0 (two_digits n)))).
  by vm_compute.
Qed.

Lemma digits_year_digits (y : nat) (rest : string) :
  (1000 <= y < 100 * 100)%nat ->
  Dateutil.digits 4 0 (year_digits y +:+ rest) = Some (y, rest).
Proof.
  intros [Hlo Hhi].
  apply (digits_append 4 0 (year_digits y) y "" rest), reads_as_true.
  assert (((1000 <=? y)%nat
           && negb (reads_as y (Dateutil.digits 4 0 (year_digits y)))) = false) as H.
  { apply negb_true_iff. clear Hlo. revert y Hhi.
    apply (bounded_check
             (fun y => negb ((1000 <=? y)%nat
                             && negb (reads_as y (Dateutil.digits 4 0 (year_digits y)))))).
    by vm_compute. }
  apply andb_false_iff in H as [H|H].
  - apply Nat.leb_gt in H. lia.
  - by apply negb_false_iff in H.
Qed.

Lemma expect_append (text rest : string) :
  Dateutil.expect text (text +:+ rest) = Some rest.
Proof. by apply strip_prefix_Some. Qed.

(** The text written for a valid datetime of a four-digit year denotes the
    UTC instant of its calendar and clock fields. *)
Lemma iso8601_utc_instant_text (dt : datetime) :
  valid_datetime dt -> (1000 <= dt.(year))%nat ->
  iso8601_utc_instant (iso8601_utc_text dt)
  = Some (utc_fields_instant dt.(year) dt.(month) dt.(day)
            dt.(hour) dt.(minute) dt.(second) 0).
Proof.
  intros Hvalid Hyear.
  destruct (valid_datetime_bounds dt Hvalid) as (Hy & Hm & Hd & HH & HM & HS).
  unfold iso8601_utc_instant, iso8601_utc_text, Dateutil.clock.
  rewrite digits_year_digits by lia. cbn [mbind option_bind].
  rewrite expect_append. cbn [mbind option_bind].
  rewrite digits_two_digits by done. cbn [mbind option_bind].
  rewrite expect_append. cbn [mbind option_bind].
  rewrite digits_two_digits by done. cbn [mbind option_bind].
  rewrite expect_append. cbn [mbind option_bind].
  rewrite digits_two_digits by done. cbn [mbind option_bind].
  rewrite expect_append. cbn [mbind option_bind].
  rewrite digits_two_digits by done. cbn [mbind option_bind].
  rewrite expect_append. cbn [mbind option_bind].
  rewrite digits_two_digits by done. cbn [mbind option_bind].
  reflexivity.
Qed.

(** ** C7: conversion of raw timestamps *)

Lemma sample_datetime_valid : valid_datetime sample_datetime.
Proof. unfold valid_datetime, sample_datetime. cbn. lia. Qed.

Lemma utc_fields_instant_of_datetime (dt : datetime) :
  utc_fields_instant dt.(year) dt.(month) dt.(day)
    dt.(hour) dt.(minute) dt.(second) 0
  = instant dt + default 0 dt.(tzinfo) * 1000000 - Z.of_nat dt.(microsecond).
Proof. unfold instant, utc_fields_instant. lia. Qed.

(** C7, as stated, fails on a timestamp that carries an offset: the ISO-8601
    string "2020-11-18T15:23:52+02:00" is converted to
    "2020-11-18T15:23:52Z", which lies two hours after the instant of the
    input. *)
Lemma convert_offset_not_same_instant :
  convert_raw_utc_timestamp_to_string Dateutil.parse
    "2020-11-18T15:23:52+02:00" default_date_format
  = Ok "2020-11-18T15:23:52Z"
  /\ ~ denotes_same_instant Dateutil.parse
         "2020-11-18T15:23:52+02:00" "2020-11-18T15:23:52Z".
Proof.
  split; [reflexivity|].
  intros (dt & dt' & Hraw & Hout & Hsame).
  vm_compute in Hraw, Hout. injection Hraw as <-. injection Hout as <-.
  by vm_compute in Hsame.
Qed.

(** C7, amended.  For every raw timestamp the parser accepts as a valid
    datetime, conversion with the default pattern returns the text
    <year>-MM-DDTHH:MM:SSZ of the parsed calendar and clock fields, the
    year as a plain decimal number and every other field as two digits,
    marked UTC whatever offset the input carries and without any fraction
    of a second; with the pattern %Y%m%dT%H%M%SZ it returns the same fields
    without separators.  From the year 1000 on the text has the canonical
    form YYYY-MM-DDTHH:MM:SSZ and denotes the instant of the input moved by
    the input's offset and cut to the whole second: the same instant when
    the input has no offset or a zero one and no fraction of a second.
    "Wed, 18 Nov 2020 15:23:52 GMT" gives "2020-11-18T15:23:52Z", and
    "20201118T152352Z" with the pattern %Y%m%dT%H%M%SZ. *)
Theorem convert_keeps_fields (parse : string -> option datetime)
    (raw : string) (dt : datetime) :
  parse raw = Some dt ->
  valid_datetime dt ->
  convert_raw_utc_timestamp_to_string parse raw default_date_format
  = Ok (iso8601_utc_text dt)
  /\ convert_raw_utc_timestamp_to_string parse raw "%Y%m%dT%H%M%SZ"
     = Ok (compact_utc_text dt)
  /\ ((1000 <= dt.(year))%nat ->
      is_iso8601_utc (iso8601_utc_text dt) = true
      /\ iso8601_utc_instant (iso8601_utc_text dt)
         = Some (instant dt + default 0 dt.(tzinfo) * 1000000
                 - Z.of_nat dt.(microsecond))
      /\ (default 0 dt.(tzinfo) = 0 -> dt.(microsecond) = 0%nat ->
          iso8601_utc_instant (iso8601_utc_text dt) = Some (instant dt)))
  /\ convert_raw_utc_timestamp_to_string Dateutil.parse
       "Wed, 18 Nov 2020 15:23:52 GMT" default_date_format
     = Ok "2020-11-18T15:23:52Z"
  /\ convert_raw_utc_timestamp_to_string Dateutil.parse
       "Wed, 18 Nov 2020 15:23:52 GMT" "%Y%m%dT%H%M%SZ"
     = Ok "20201118T152352Z"
  /\ convert_raw_utc_timestamp_to_string Dateutil.parse
       "Mon, 02 Mar 2020 09:05:07 GMT" default_date_format
     = Ok "2020-03-02T09:05:07Z".
Proof.
  intros Hparse Hvalid. split_and!.
  - by apply convert_default_format.
  - by apply convert_compact_format.
  - intros Hyear.
    pose proof (iso8601_utc_instant_text dt Hvalid Hyear) as Hread.
    rewrite utc_fields_instant_of_datetime in Hread.
    split_and!.
    + by apply iso8601_utc_text_shape.
    + exact Hread.
    + intros Hzero Hwhole. rewrite Hread, Hzero, Hwhole. f_equal. lia.
  - reflexivity.
  - reflexivity.
  - reflexivity.
Qed.

Lemma convert_keeps_fields_witness :
  convert_raw_utc_timestamp_to_string Dateutil.parse
    "2020-11-18T15:23:52Z" default_date_format
  = Ok "2020-11-18T15:23:52Z"
  /\ iso8601_utc_instant "2020-11-18T15:23:52Z" = Some (instant sample_datetime).
Proof.
  destruct (convert_keeps_fields Dateutil.parse "2020-11-18T15:23:52Z"
              sample_datetime eq_refl sample_datetime_valid)
    as (Htext & _ & Hinstant & _).
  destruct (Hinstant ltac:(vm_compute; lia)) as (_ & _ & Hsame).
  split; [exact Htext | exact (Hsame eq_refl eq_refl)].
Defined.

(** A year below 1000 is written with fewer than four digits. *)
Lemma convert_year_below_1000 :
  convert_raw_utc_timestamp_to_string Dateutil.parse
    "0999-01-01T00:00:00Z" default_date_format
  = Ok "999-01-01T00:00:00Z"
  /\ convert_raw_utc_timestamp_to_string Dateutil.parse
       "0999-01-01T00:00:00Z" "%Y%m%dT%H%M%SZ"
     = Ok "9990101T000000Z".
Proof. by split. Qed.

(** ** C8: the dateTime query string *)

Lemma fits_all_chars (p : ascii -> bool) (shape : list slot) :
  Forall (slot_allowed p) shape ->
  forall s, fits shape s = true -> Py.all_chars p s = true.
Proof.
  induction 1 as [|sl shape Hsl _ IH]; intros [|c s]; try done.
  destruct sl as [|x]; simpl; rewrite !andb_true_iff; intros [Hc Hs].
  - split; [by apply Hsl | by apply IH].
  - apply ascii_eqb_true in Hc as ->. split; [done | by apply IH].
Qed.

Lemma digit_safe (c : ascii) :
  Py.in_range "0" "9" c = true -> safe_or_colon c = true.
Proof. destruct c as [[] [] [] [] [] [] [] []]; by vm_compute. Qed.

Lemma is_iso8601_utc_safe (s : string) :
  is_iso8601_utc s = true -> Py.all_chars safe_or_colon s = true.
Proof.
  apply fits_all_chars. unfold iso8601_utc_shape.
  repeat (apply Forall_cons; split; [first [exact digit_safe | reflexivity]|]).
  apply Forall_nil_2.
Qed.

Lemma quote_plus_char_safe (c : ascii) :
  Urllib.always_safe c = true ->
  Urllib.quote_plus_char c = String c "" /\ Ascii.eqb "%" c = false.
Proof. destruct c as [[] [] [] [] [] [] [] []]; by vm_compute. Qed.

Lemma replace_quote_plus (s : string) :
  Py.all_chars safe_or_colon s = true ->
  Py.replace_from "%3A" ":" 0 (Urllib.quote_plus s) = s.
Proof.
  induction s as [|c s IH]; [done|]. simpl.
  rewrite andb_true_iff. intros [Hc Hs]. specialize (IH Hs).
  unfold safe_or_colon in Hc. apply orb_true_iff in Hc as [Hsafe | Hcolon].
  - apply quote_plus_char_safe in Hsafe as [-> Hpct].
    rewrite append_cons, append_empty_l.
    cbn [Py.replace_from Py.strip_prefix]. rewrite Hpct. by rewrite IH.
  - apply ascii_eqb_true in Hcolon as ->.
    change (Urllib.quote_plus_char ":") with "%3A".
    rewrite !append_cons, append_empty_l.
    change (Py.replace_from "%3A" ":" 0
              (String "%" (String "3" (String "A" (Urllib.quote_plus s)))))
      with (":" +:+ Py.replace_from "%3A" ":" 0 (Urllib.quote_plus s)).
    by rewrite IH.
Qed.

Lemma prepare_timestamp_query_string_safe (s : string) :
  Py.all_chars safe_or_colon s = true ->
  prepare_timestamp_query_string s = "dateTime=" +:+ s.
Proof.
  intros Hs.
  change (prepare_timestamp_query_string s)
    with ("dateTime=" +:+ Py.replace_from "%3A" ":" 0 (Urllib.quote_plus s)).
  by rewrite replace_quote_plus.
Qed.






Lemma digit_char_safe (d : nat) : safe_or_colon (digit_char d) = true.
Proof. apply digit_safe, digit_char_digit. Qed.

Lemma year_digits_safe (y : nat) : Py.all_chars safe_or_colon (year_digits y) = true.
Proof.
  unfold year_digits.
  destruct (1000 <=? y)%nat, (100 <=? y)%nat, (10 <=? y)%nat;
    rewrite !all_chars_append; cbn [Py.all_chars]; by rewrite !digit_char_safe.
Qed.

Lemma two_digits_safe (n : nat) : Py.all_chars safe_or_colon (two_digits n) = true.
Proof. unfold two_digits. cbn [Py.all_chars]. by rewrite !digit_char_safe. Qed.

(** Whatever the default pattern writes passes through the query builder
    unchanged. *)
Lemma iso8601_utc_text_safe (dt : datetime) :
  Py.all_chars safe_or_colon (iso8601_utc_text dt) = true.
Proof.
  unfold iso8601_utc_text.
  by rewrite !all_chars_append, year_digits_safe, !two_digits_safe.
Qed.




(** The command line builds the query from a converted timestamp: whatever
    valid datetime the parser returned, the query is "dateTime=" and the
    converted text. *)
Lemma query_of_converted_timestamp (parse : string -> option datetime)
    (raw : string) (dt : datetime) :
  parse raw = Some dt -> valid_datetime dt ->
  (iso ← convert_raw_utc_timestamp_to_string parse raw default_date_format;
   mret (prepare_timestamp_query_string iso))
  = Ok ("dateTime=" +:+ iso8601_utc_text dt).
Proof.
  intros Hparse Hvalid. rewrite (convert_default_format parse raw dt Hparse Hvalid).
  cbn [mbind result_bind mret result_ret]. f_equal.
  apply prepare_timestamp_query_string_safe, iso8601_utc_text_safe.
Qed.

(** ** C1: the timestamp of a retrieved configuration *)

Lemma split_no_equals (s : string) :
  no_equals s = true -> Py.split "=" s = [s].
Proof.
  induction s as [|c s IH]; [done|]. unfold no_equals. simpl.
  rewrite andb_true_iff, negb_true_iff. intros [-> Hs]. by rewrite (IH Hs).
Qed.

Lemma split_at_equals (key rest : string) :
  no_equals key = true ->
  Py.split "=" (key +:+ "=" +:+ rest) = key :: Py.split "=" rest.
Proof.
  induction key as [|c key IH]; [done|]. unfold no_equals. cbn [Py.all_chars].
  rewrite andb_true_iff, negb_true_iff. intros [Hc Hkey].
  rewrite append_cons. cbn [Py.split]. rewrite Hc. by rewrite (IH Hkey).
Qed.

(** In [key=value] and in [key=value=more] the segment at index 1 of the
    split at "=" is [value]. *)
Lemma split_value_segment (key value rest : string) :
  no_equals key = true -> no_equals value = true ->
  rest = "" \/ (exists more, rest = "=" +:+ more) ->
  Py.split "=" (key +:+ "=" +:+ value +:+ rest) !! 1%nat = Some value.
Proof.
  intros Hkey Hvalue Hrest. rewrite (split_at_equals key _ Hkey).
  destruct Hrest as [-> | [more ->]].
  - by rewrite append_empty_r, (split_no_equals value Hvalue).
  - by rewrite (split_at_equals value _ Hvalue).
Qed.

Lemma append_equals_not_empty (key rest : string) : key +:+ "=" +:+ rest <> "".
Proof. by destruct key. Qed.


(** What [infer_timestamp_from_retrieved_response] hands to the conversion:
    the Date header for an empty query, the segment after the first "=" of
    the query otherwise. *)
Lemma infer_timestamp_of_date_header (parse : string -> option datetime)
    (response : Response) (date : string) :
  Urllib.urlparse_query response.(request_url) = "" ->
  response.(headers) !! "date" = Some date ->
  infer_timestamp_from_retrieved_response parse response
  = convert_raw_utc_timestamp_to_string parse date "%Y%m%dT%H%M%SZ".
Proof.
  intros Hq Hdate. unfold infer_timestamp_from_retrieved_response.
  rewrite Hq. cbn [String.eqb]. unfold headers_getitem.
  change (Py.lower "Date") with "date". by rewrite Hdate.
Qed.

Lemma infer_timestamp_of_value_segment (parse : string -> option datetime)
    (url key value rest : string) (h : gmap string string) (body : list Byte.byte) :
  Urllib.urlparse_query url = key +:+ "=" +:+ value +:+ rest ->
  no_equals key = true -> no_equals value = true ->
  rest = "" \/ (exists more, rest = "=" +:+ more) ->
  infer_timestamp_from_retrieved_response parse
    {| request_url := url; headers := h; content := body |}
  = convert_raw_utc_timestamp_to_string parse value "%Y%m%dT%H%M%SZ".
Proof.
  intros Hq Hkey Hvalue Hrest.
  unfold infer_timestamp_from_retrieved_response. cbn [request_url].
  rewrite Hq.
  destruct (String.eqb_spec (key +:+ "=" +:+ value +:+ rest) "") as [He|_].
  { by apply append_equals_not_empty in He. }
  by rewrite (split_value_segment key value rest Hkey Hvalue Hrest).
Qed.

(** C1.  When the query component of the request URL is empty,
    [infer_timestamp_from_retrieved_response] returns the response's Date
    header parsed and rewritten with the pattern %Y%m%dT%H%M%SZ: the year
    as a decimal number and month, day, hour, minute and second as two
    digits each ('Fri, 20 Nov 2020 11:47:40 GMT' gives '20201120T114740Z').
    When the query is [key=value], possibly followed by further
    "="-separated text, it returns [value] parsed and rewritten in the same
    way, whatever the headers are ('dateTime=2020-11-18T12:30:52Z' gives
    '20201118T123052Z').  A text the parser rejects raises [ParserError]. *)
Theorem infer_timestamp_sources (parse : string -> option datetime)
    (response : Response) :
  (Urllib.urlparse_query response.(request_url) = "" ->
   forall date, response.(headers) !! "date" = Some date ->
     (forall dt, parse date = Some dt -> valid_datetime dt ->
        infer_timestamp_from_retrieved_response parse response
        = Ok (compact_utc_text dt))
     /\ (parse date = None ->
         infer_timestamp_from_retrieved_response parse response
         = Raise (ParserError date)))
  /\ (forall key value rest,
        Urllib.urlparse_query response.(request_url) = key +:+ "=" +:+ value +:+ rest ->
        no_equals key = true -> no_equals value = true ->
        rest = "" \/ (exists more, rest = "=" +:+ more) ->
        forall other_headers body,
          (forall dt, parse value = Some dt -> valid_datetime dt ->
             infer_timestamp_from_retrieved_response parse
               {| request_url := response.(request_url);
                  headers := other_headers; content := body |}
             = Ok (compact_utc_text dt))
          /\ (parse value = None ->
              infer_timestamp_from_retrieved_response parse
                {| request_url := response.(request_url);
                   headers := other_headers; content := body |}
              = Raise (ParserError value)))
  /\ infer_timestamp_from_retrieved_response Dateutil.parse
       {| request_url := watchlists_url;
          headers := {[ "date" := "Fri, 20 Nov 2020 11:47:40 GMT" ]};
          content := [] |}
     = Ok "20201120T114740Z"
  /\ (forall other_headers body,
        infer_timestamp_from_retrieved_response Dateutil.parse
          {| request_url := watchlists_url +:+ "?dateTime=2020-11-18T12:30:52Z";
             headers := other_headers; content := body |}
        = Ok "20201118T123052Z")
  /\ infer_timestamp_from_retrieved_response Dateutil.parse
       {| request_url := watchlists_url;
          headers := {[ "date" := "Mon, 02 Mar 2020 09:05:07 GMT" ]};
          content := [] |}
     = Ok "20200302T090507Z".
Proof.
  split_and!.
  - intros Hq date Hdate.
    rewrite (infer_timestamp_of_date_header parse response date Hq Hdate).
    split.
    + intros dt Hparse Hvalid. by apply convert_compact_format.
    + intros Hparse. by apply convert_rejected.
  - intros key value rest Hq Hkey Hvalue Hrest other_headers body.
    rewrite (infer_timestamp_of_value_segment parse _ key value rest
               other_headers body Hq Hkey Hvalue Hrest).
    split.
    + intros dt Hparse Hvalid. by apply convert_compact_format.
    + intros Hparse. by apply convert_rejected.
  - reflexivity.
  - intros other_headers body. reflexivity.
  - reflexivity.
Qed.

Lemma infer_timestamp_sources_witness :
  infer_timestamp_from_retrieved_response Dateutil.parse deactivated_response
  = Ok "20201118T123052Z".
Proof.
  destruct (infer_timestamp_sources Dateutil.parse deactivated_response) as (_ & H & _).
  destruct (H "dateTime" "2020-11-18T12:30:52Z" "" eq_refl eq_refl eq_refl
              (or_introl eq_refl) deactivated_response.(headers) []) as [Hok _].
  exact (Hok {| year := 2020; month := 11; day := 18; hour := 12; minute := 30;
                second := 52; microsecond := 0; tzinfo := Some 0 |}
             eq_refl ltac:(unfold valid_datetime; cbn; lia)).
Defined.

(** [join_base_url_and_query_string] drops one trailing slash. *)
Lemma join_base_url_and_query_string_examples :
  join_base_url_and_query_string "https://host/path" "dateTime=X"
  = "https://host/path?dateTime=X"
  /\ join_base_url_and_query_string "https://host/path/" "dateTime=X"
     = "https://host/path?dateTime=X".
Proof. by split. Qed.

(** A query without "=" has no segment at index 1. *)
Lemma infer_timestamp_query_without_equals :
  forall parse other_headers body,
    infer_timestamp_from_retrieved_response parse
      {| request_url := watchlists_url +:+ "?latest";
         headers := other_headers; content := body |}
    = Raise IndexError.
Proof. reflexivity. Qed.

(** A response without a Date header has no timestamp to fall back on. *)
Lemma infer_timestamp_without_date_header :
  forall parse body,
    infer_timestamp_from_retrieved_response parse
      {| request_url := watchlists_url; headers := ∅; content := body |}
    = Raise (KeyError "date").
Proof. reflexivity. Qed.
(** * Further properties of the package *)

(** ** helpers.py: joining a base URL and a query *)

Lemma endswith_char_append (b : string) (c x : ascii) :
  endswith_char (b +:+ String c "") x = Ascii.eqb c x.
Proof.
  induction b as [|a b IH]; [done|].
  rewrite append_cons. cbn [endswith_char]. rewrite IH.
  by destruct b.
Qed.

Lemma drop_last_append (b : string) (c : ascii) : drop_last (b +:+ String c "") = b.
Proof.
  induction b as [|a b IH]; [done|].
  rewrite append_cons. cbn [drop_last]. rewrite IH. by destruct b.
Qed.

(** X1.  [join_base_url_and_query_string] removes exactly one trailing
    slash: a base written with a final "/" is joined as the text before
    that slash, whatever that text ends with, and a base that does not end
    in "/" (the empty one included) is joined as it is. *)
Theorem join_strips_one_slash (base query : string) :
  join_base_url_and_query_string (base +:+ "/") query = base +:+ "?" +:+ query
  /\ (endswith_char base "/" = false ->
      join_base_url_and_query_string base query = base +:+ "?" +:+ query)
  /\ (forall b, base = b +:+ "//" ->
      join_base_url_and_query_string base query = b +:+ "/?" +:+ query).
Proof.
  split_and!.
  - unfold join_base_url_and_query_string.
    by rewrite endswith_char_append, drop_last_append.
  - intros H. unfold join_base_url_and_query_string. by rewrite H.
  - intros b ->. unfold join_base_url_and_query_string.
    change (b +:+ "//") with (b +:+ "/" +:+ "/"). rewrite <- append_assoc.
    rewrite endswith_char_append, drop_last_append.
    by rewrite append_assoc.
Qed.

Lemma join_strips_one_slash_witness :
  join_base_url_and_query_string "https://host/path" "dateTime=X"
  = "https://host/path" +:+ "?" +:+ "dateTime=X".
Proof.
  destruct (join_strips_one_slash "https://host/path" "dateTime=X") as (_ & H & _).
  exact (H eq_refl).
Defined.

(** ** helpers.py: what a query value is made of *)

Lemma quote_plus_char_alphabet (c : ascii) :
  Py.all_chars query_value_char (Urllib.quote_plus_char c) = true.
Proof. destruct c as [[] [] [] [] [] [] [] []]; by vm_compute. Qed.

Lemma quote_plus_alphabet (s : string) :
  Py.all_chars query_value_char (Urllib.quote_plus s) = true.
Proof.
  induction s as [|c s IH]; [done|]. cbn [Urllib.quote_plus].
  by rewrite all_chars_append, quote_plus_char_alphabet, IH.
Qed.

Lemma replace_from_all_chars (p : ascii -> bool) (old new : string) :
  Py.all_chars p new = true ->
  forall s skip, Py.all_chars p s = true ->
    Py.all_chars p (Py.replace_from old new skip s) = true.
Proof.
  intros Hnew. induction s as [|c s IH]; intros skip; [done|].
  cbn [Py.all_chars Py.replace_from]. rewrite andb_true_iff. intros [Hc Hs].
  destruct skip as [|k]; [|by apply IH].
  destruct (Py.strip_prefix old (String c s)).
  - rewrite all_chars_append, Hnew. by apply IH.
  - cbn [Py.all_chars]. rewrite Hc. by apply IH.
Qed.

Lemma query_value_char_plain (c : ascii) :
  query_value_char c = true ->
  negb (Py.mem_chars c "&=#?/ ") = true.
Proof. destruct c as [[] [] [] [] [] [] [] []]; by vm_compute. Qed.

(** X2.  Whatever string is passed, [prepare_timestamp_query_string]
    returns "dateTime=" followed by a value made only of letters, digits,
    "_.-~", "%", "+" and ":"; the value therefore holds no "&", "=", "#",
    "?", "/" or space, so the argument cannot add a parameter or a fragment
    to the query. *)
Theorem prepare_timestamp_query_string_alphabet (s : string) :
  exists value,
    prepare_timestamp_query_string s = "dateTime=" +:+ value
    /\ Py.all_chars query_value_char value = true
    /\ Py.all_chars (fun c => negb (Py.mem_chars c "&=#?/ ")) value = true.
Proof.
  exists (Py.replace_from "%3A" ":" 0 (Urllib.quote_plus s)).
  assert (Py.all_chars query_value_char
            (Py.replace_from "%3A" ":" 0 (Urllib.quote_plus s)) = true) as Hv.
  { apply replace_from_all_chars; [done | apply quote_plus_alphabet]. }
  split_and!; [reflexivity | exact Hv |].
  by apply (all_chars_impl query_value_char), Hv; apply query_value_char_plain.
Qed.

(** ** From the built URL back to the timestamp *)

Lemma endswith_char_true (s : string) (x : ascii) :
  endswith_char s x = true -> exists b, s = b +:+ String x "".
Proof.
  induction s as [|a s IH]; [done|]. intros H. destruct s as [|a' s].
  - simpl in H. apply ascii_eqb_true in H as ->. by exists "".
  - destruct (IH H) as [b ->]. exists (String a b). by rewrite append_cons.
Qed.

Lemma partition_absent (sep : ascii) (s : string) :
  no_char sep s = true -> Py.partition sep s = (s, None).
Proof.
  induction s as [|c s IH]; [done|]. unfold no_char. cbn [Py.all_chars Py.partition].
  rewrite andb_true_iff, negb_true_iff. intros [-> Hs]. by rewrite (IH Hs).
Qed.

Lemma partition_at (sep : ascii) (before after : string) :
  no_char sep before = true ->
  Py.partition sep (before +:+ String sep after) = (before, Some after).
Proof.
  induction before as [|c s IH].
  - intros _. rewrite append_empty_l. cbn [Py.partition]. by rewrite Ascii.eqb_refl.
  - unfold no_char. cbn [Py.all_chars]. rewrite andb_true_iff, negb_true_iff.
    intros [Hc Hs]. rewrite append_cons. cbn [Py.partition]. rewrite Hc.
    by rewrite (IH Hs).
Qed.

Lemma urlparse_query_of_joined (base query : string) :
  plain_base base = true -> no_char "#" query = true ->
  Urllib.urlparse_query (base +:+ "?" +:+ query) = query.
Proof.
  unfold plain_base. rewrite andb_true_iff. intros [Hq Hf] Hquery.
  unfold Urllib.urlparse_query. rewrite (partition_absent "#").
  - cbn [fst]. change (base +:+ "?" +:+ query) with (base +:+ String "?" query).
    by rewrite partition_at.
  - unfold no_char in *. by rewrite !all_chars_append, Hf, Hquery.
Qed.

Lemma plain_base_stripped (base : string) :
  plain_base (base +:+ "/") = true -> plain_base base = true.
Proof.
  unfold plain_base, no_char. rewrite !all_chars_append, !andb_true_iff. tauto.
Qed.

Lemma urlparse_query_of_join (base query : string) :
  plain_base base = true -> no_char "#" query = true ->
  Urllib.urlparse_query (join_base_url_and_query_string base query) = query.
Proof.
  intros Hbase Hquery. unfold join_base_url_and_query_string.
  destruct (endswith_char base "/") eqn:Hend.
  - apply endswith_char_true in Hend as [b ->]. rewrite drop_last_append.
    apply urlparse_query_of_joined; [by apply plain_base_stripped | done].
  - by apply urlparse_query_of_joined.
Qed.

Lemma clean_base_char (c : ascii) :
  url_char c && negb (Py.mem_chars c "?#[]") = true ->
  negb (Ascii.eqb c "?") = true /\ negb (Ascii.eqb c "#") = true.
Proof. destruct c as [[] [] [] [] [] [] [] []]; by vm_compute. Qed.

Lemma clean_base_plain (base : string) :
  clean_base base = true -> plain_base base = true.
Proof.
  intros H. unfold plain_base, no_char. apply andb_true_iff. split.
  - apply (all_chars_impl _ _ _ (fun c Hc => proj1 (clean_base_char c Hc)) H).
  - apply (all_chars_impl _ _ _ (fun c Hc => proj2 (clean_base_char c Hc)) H).
Qed.

Lemma clean_query_char (c : ascii) :
  negb (Ascii.eqb c "#" || Ascii.eqb c (Ascii.ascii_of_nat 9)
        || Ascii.eqb c (Ascii.ascii_of_nat 10)
        || Ascii.eqb c (Ascii.ascii_of_nat 13)) = true ->
  negb (Ascii.eqb c "#") = true.
Proof. destruct c as [[] [] [] [] [] [] [] []]; by vm_compute. Qed.

Lemma clean_query_no_hash (query : string) :
  clean_query query = true -> no_char "#" query = true.
Proof.
  intros H. unfold no_char.
  apply (all_chars_impl _ _ _ clean_query_char H).
Qed.

(** X3.  Joining and parsing are inverse on the query: for a base URL of
    printable ASCII characters without space, "?", "#", "[" and "]", and a
    query without "#", tab, carriage return and line feed, the query
    component that [urlparse] reads from the joined URL is the query that
    was joined, with or without a trailing slash on the base. *)
Theorem urlparse_query_join (base query : string) :
  clean_base base = true -> clean_query query = true ->
  Urllib.urlparse_query (join_base_url_and_query_string base query) = query.
Proof.
  intros Hbase Hquery.
  apply urlparse_query_of_join;
    [by apply clean_base_plain | by apply clean_query_no_hash].
Qed.

Lemma urlparse_query_join_witness :
  Urllib.urlparse_query
    (join_base_url_and_query_string "https://host/path/" "dateTime=X&other=Y")
  = "dateTime=X&other=Y".
Proof. exact (urlparse_query_join "https://host/path/" "dateTime=X&other=Y" eq_refl eq_refl). Defined.

(** The value [prepare_timestamp_query_string] writes after "dateTime=". *)
Lemma prepared_value (s : string) :
  prepare_timestamp_query_string s
  = "dateTime=" +:+ Py.replace_from "%3A" ":" 0 (Urllib.quote_plus s)
  /\ Py.all_chars query_value_char
       (Py.replace_from "%3A" ":" 0 (Urllib.quote_plus s)) = true.
Proof.
  split; [reflexivity|].
  apply replace_from_all_chars; [done | apply quote_plus_alphabet].
Qed.

Lemma query_value_char_no_equals (c : ascii) :
  query_value_char c = true -> negb (Ascii.eqb c "=") = true.
Proof. destruct c as [[] [] [] [] [] [] [] []]; by vm_compute. Qed.

Lemma query_value_char_no_hash (c : ascii) :
  query_value_char c = true -> negb (Ascii.eqb c "#") = true.
Proof. destruct c as [[] [] [] [] [] [] [] []]; by vm_compute. Qed.

Lemma infer_timestamp_of_query (parse : string -> option datetime)
    (url value : string) (h : gmap string string) (body : list Byte.byte) :
  Urllib.urlparse_query url = "dateTime=" +:+ value ->
  no_equals value = true ->
  infer_timestamp_from_retrieved_response parse
    {| request_url := url; headers := h; content := body |}
  = convert_raw_utc_timestamp_to_string parse value "%Y%m%dT%H%M%SZ".
Proof.
  intros Hq Hvalue. unfold infer_timestamp_from_retrieved_response.
  cbn [request_url]. rewrite Hq.
  change ("dateTime=" +:+ value) with ("dateTime" +:+ "=" +:+ value) at 2.
  rewrite (split_at_equals "dateTime" value eq_refl), (split_no_equals value Hvalue).
  reflexivity.
Qed.

(** X4.  A request built by [join_base_url_and_query_string] and
    [prepare_timestamp_query_string] is read back by
    [infer_timestamp_from_retrieved_response]: for a base URL of printable
    ASCII characters without space, "?", "#", "[" and "]", the inferred
    timestamp is the conversion of the encoded value, whatever the response
    headers say; for a timestamp of the form YYYY-MM-DDTHH:MM:SSZ the
    encoded value is the timestamp itself. *)
Theorem infer_timestamp_of_prepared_request (parse : string -> option datetime)
    (base s : string) (h : gmap string string) (body : list Byte.byte) :
  clean_base base = true ->
  (forall value,
     prepare_timestamp_query_string s = "dateTime=" +:+ value ->
     infer_timestamp_from_retrieved_response parse
       {| request_url :=
            join_base_url_and_query_string base (prepare_timestamp_query_string s);
          headers := h; content := body |}
     = convert_raw_utc_timestamp_to_string parse value "%Y%m%dT%H%M%SZ")
  /\ (is_iso8601_utc s = true ->
      infer_timestamp_from_retrieved_response parse
        {| request_url :=
             join_base_url_and_query_string base (prepare_timestamp_query_string s);
           headers := h; content := body |}
      = convert_raw_utc_timestamp_to_string parse s "%Y%m%dT%H%M%SZ").
Proof.
  intros Hbase%clean_base_plain.
  destruct (prepared_value s) as [Hprep Halpha].
  assert (forall value,
            prepare_timestamp_query_string s = "dateTime=" +:+ value ->
            infer_timestamp_from_retrieved_response parse
              {| request_url :=
                   join_base_url_and_query_string base (prepare_timestamp_query_string s);
                 headers := h; content := body |}
            = convert_raw_utc_timestamp_to_string parse value "%Y%m%dT%H%M%SZ") as Hgen.
  { intros value Hvalue.
    assert (value = Py.replace_from "%3A" ":" 0 (Urllib.quote_plus s)) as ->.
    { apply (inj (String.app "dateTime=")). by rewrite <- Hvalue, <- Hprep. }
    apply infer_timestamp_of_query.
    - rewrite urlparse_query_of_join; [done | done |].
      rewrite Hprep. unfold no_char. rewrite all_chars_append.
      apply andb_true_iff. split; [reflexivity|].
      by apply (all_chars_impl query_value_char), Halpha; apply query_value_char_no_hash.
    - by apply (all_chars_impl query_value_char), Halpha; apply query_value_char_no_equals. }
  split; [exact Hgen|].
  intros Hiso. apply Hgen.
  by apply prepare_timestamp_query_string_safe, is_iso8601_utc_safe.
Qed.

Lemma infer_timestamp_of_prepared_request_witness :
  infer_timestamp_from_retrieved_response Dateutil.parse
    {| request_url :=
         join_base_url_and_query_string "https://host/path/"
           (prepare_timestamp_query_string "2020-11-18T12:30:52Z");
       headers := ∅; content := [] |}
  = convert_raw_utc_timestamp_to_string Dateutil.parse
      "2020-11-18T12:30:52Z" "%Y%m%dT%H%M%SZ".
Proof.
  destruct (infer_timestamp_of_prepared_request Dateutil.parse "https://host/path/"
              "2020-11-18T12:30:52Z" ∅ [] eq_refl) as [_ H].
  exact (H eq_refl).
Defined.

(** ** The text forms of converted timestamps *)

Lemma iso8601_utc_text_form_iff (dt : datetime) :
  (is_iso8601_utc (iso8601_utc_text dt) = true <-> (1000 <= dt.(year))%nat)
  /\ (String.length (iso8601_utc_text dt) = 20%nat <-> (1000 <= dt.(year))%nat).
Proof.
  assert (String.length (iso8601_utc_text dt) = 20%nat <-> (1000 <= dt.(year))%nat)
    as Hlen.
  { rewrite iso8601_utc_text_length, <- year_digits_length. lia. }
  split; [|exact Hlen]. split.
  - intros H. apply Hlen. by rewrite (fits_length iso8601_utc_shape _ H).
  - apply iso8601_utc_text_shape.
Qed.

Lemma compact_utc_text_form_iff (dt : datetime) :
  (fits compact_utc_shape (compact_utc_text dt) = true <-> (1000 <= dt.(year))%nat)
  /\ (String.length (compact_utc_text dt) = 16%nat <-> (1000 <= dt.(year))%nat).
Proof.
  assert (String.length (compact_utc_text dt) = 16%nat <-> (1000 <= dt.(year))%nat)
    as Hlen.
  { rewrite compact_utc_text_length, <- year_digits_length. lia. }
  split; [|exact Hlen]. split.
  - intros H. apply Hlen. by rewrite (fits_length compact_utc_shape _ H).
  - apply compact_utc_text_shape.
Qed.

(** X5.  For every raw timestamp the parser accepts as a valid datetime,
    [convert_raw_utc_timestamp_to_string] writes the year as a plain
    decimal number and the other fields as two digits each.  The result has
    the fixed form YYYY-MM-DDTHH:MM:SSZ (20 characters) with the default
    pattern, and YYYYMMDDTHHMMSSZ (16 characters) with %Y%m%dT%H%M%SZ,
    exactly when the year is 1000 or later; an earlier year gives a shorter
    text.  A raw timestamp the parser rejects raises [ParserError] under
    either pattern. *)
Theorem convert_output_forms (parse : string -> option datetime) (raw : string) :
  (forall dt, parse raw = Some dt -> valid_datetime dt ->
     convert_raw_utc_timestamp_to_string parse raw default_date_format
     = Ok (iso8601_utc_text dt)
     /\ convert_raw_utc_timestamp_to_string parse raw "%Y%m%dT%H%M%SZ"
        = Ok (compact_utc_text dt)
     /\ (is_iso8601_utc (iso8601_utc_text dt) = true <-> (1000 <= dt.(year))%nat)
     /\ (String.length (iso8601_utc_text dt) = 20%nat <-> (1000 <= dt.(year))%nat)
     /\ (fits compact_utc_shape (compact_utc_text dt) = true
         <-> (1000 <= dt.(year))%nat)
     /\ (String.length (compact_utc_text dt) = 16%nat <-> (1000 <= dt.(year))%nat))
  /\ (parse raw = None ->
      convert_raw_utc_timestamp_to_string parse raw default_date_format
      = Raise (ParserError raw)
      /\ convert_raw_utc_timestamp_to_string parse raw "%Y%m%dT%H%M%SZ"
         = Raise (ParserError raw)).
Proof.
  split.
  - intros dt Hparse Hvalid.
    destruct (iso8601_utc_text_form_iff dt) as [Hiso Hisolen].
    destruct (compact_utc_text_form_iff dt) as [Hcompact Hcompactlen].
    split_and!; try done.
    + by apply convert_default_format.
    + by apply convert_compact_format.
  - intros Hparse. split; by apply convert_rejected.
Qed.

Lemma convert_output_forms_witness :
  convert_raw_utc_timestamp_to_string Dateutil.parse
    "0999-01-01T00:00:00Z" default_date_format = Ok "999-01-01T00:00:00Z"
  /\ convert_raw_utc_timestamp_to_string Dateutil.parse
       "Wed, 18 Nov 2020 15:23:52 GMT" "%Y%m%dT%H%M%SZ" = Ok "20201118T152352Z".
Proof.
  split.
  - destruct (convert_output_forms Dateutil.parse "0999-01-01T00:00:00Z") as [H _].
    destruct (H year_999 eq_refl ltac:(unfold valid_datetime; cbn; lia)) as [H1 _].
    exact H1.
  - destruct (convert_output_forms Dateutil.parse "Wed, 18 Nov 2020 15:23:52 GMT")
      as [H _].
    destruct (H sample_datetime eq_refl sample_datetime_valid) as (_ & H2 & _).
    exact H2.
Defined.

(** ** scripts/cli.py: the endpoint of the retrieve command *)

Lemma truthy_Some (t : string) : t <> "" -> truthy (Some t) = true.
Proof. by destruct t. Qed.

Lemma get_config_endpoint_accepted (parse : string -> option datetime)
    (t : string) (dt : datetime) :
  t <> "" -> parse t = Some dt -> valid_datetime dt ->
  get_config_endpoint parse (Some t)
  = Ok (watchlist_api_endpoint +:+ "?dateTime=" +:+ iso8601_utc_text dt).
Proof.
  intros Ht Hparse Hvalid. unfold get_config_endpoint.
  rewrite (truthy_Some t Ht). cbn [default from_option id].
  rewrite (convert_default_format parse t dt Hparse Hvalid).
  cbn [mbind result_bind mret result_ret].
  rewrite prepare_timestamp_query_string_safe; [reflexivity|].
  apply iso8601_utc_text_safe.
Qed.

(** X6.  The endpoint of the retrieve command: without a timestamp, and
    also with the empty string as timestamp, it is the bare endpoint (the
    active configuration is requested); a non-empty timestamp the parser
    rejects raises [ParserError] before any request; a non-empty timestamp
    parsed as a valid datetime gives the endpoint followed by "?dateTime="
    and the timestamp rewritten by the default pattern, <year>-MM-DDTHH:MM:SSZ
    with the year as a plain decimal number (four digits from 1000 on). *)
Theorem get_config_endpoint_cases (parse : string -> option datetime) :
  get_config_endpoint parse None = Ok watchlist_api_endpoint
  /\ get_config_endpoint parse (Some "") = Ok watchlist_api_endpoint
  /\ (forall t, t <> "" -> parse t = None ->
        get_config_endpoint parse (Some t) = Raise (ParserError t))
  /\ (forall t dt, t <> "" -> parse t = Some dt -> valid_datetime dt ->
        get_config_endpoint parse (Some t)
        = Ok (watchlist_api_endpoint +:+ "?dateTime=" +:+ iso8601_utc_text dt))
  /\ get_config_endpoint Dateutil.parse (Some "0999-01-01T00:00:00Z")
     = Ok (watchlist_api_endpoint +:+ "?dateTime=999-01-01T00:00:00Z").
Proof.
  split_and!; [done | done | | | reflexivity].
  - intros t Ht Hparse. unfold get_config_endpoint. rewrite (truthy_Some t Ht).
    cbn [default from_option id]. by rewrite (convert_rejected parse t _ Hparse).
  - intros t dt. apply get_config_endpoint_accepted.
Qed.

Lemma get_config_endpoint_cases_witness :
  get_config_endpoint Dateutil.parse (Some "Mon, 02 Mar 2020 09:05:07 GMT")
  = Ok (watchlist_api_endpoint +:+ "?dateTime=" +:+ "2020-03-02T09:05:07Z").
Proof.
  destruct (get_config_endpoint_cases Dateutil.parse) as (_ & _ & _ & H & _).
  exact (H "Mon, 02 Mar 2020 09:05:07 GMT" early_march
           ltac:(discriminate) eq_refl ltac:(unfold valid_datetime; cbn; lia)).
Defined.

Lemma safe_or_colon_no_hash (c : ascii) :
  safe_or_colon c = true -> negb (Ascii.eqb c "#") = true.
Proof. destruct c as [[] [] [] [] [] [] [] []]; by vm_compute. Qed.

Lemma safe_or_colon_no_equals (c : ascii) :
  safe_or_colon c = true -> negb (Ascii.eqb c "=") = true.
Proof. destruct c as [[] [] [] [] [] [] [] []]; by vm_compute. Qed.

(** X7.  The retrieve command closes the loop on its timestamp: when a
    non-empty timestamp is parsed as a valid datetime [dt], and the parser
    reads the text the default pattern writes for [dt] back as a valid
    datetime [dt'], the configuration packaged from any response to the
    request built for it carries the fields of [dt'] written by the pattern
    %Y%m%dT%H%M%SZ and the response body unchanged, whatever the response
    headers are. *)
Theorem get_config_round_trip (parse : string -> option datetime)
    (t url : string) (dt dt' : datetime)
    (h : gmap string string) (body : list Byte.byte) :
  t <> "" -> parse t = Some dt -> valid_datetime dt ->
  parse (iso8601_utc_text dt) = Some dt' -> valid_datetime dt' ->
  get_config_endpoint parse (Some t) = Ok url ->
  package_retrieved_configuration parse
    {| request_url := url; headers := h; content := body |}
  = Ok {| timestamp := compact_utc_text dt'; config_body := body |}.
Proof.
  intros Ht Hparse Hvalid Hback Hvalid' Hurl.
  rewrite (get_config_endpoint_accepted parse t dt Ht Hparse Hvalid) in Hurl.
  injection Hurl as <-.
  pose proof (iso8601_utc_text_safe dt) as Hsafe.
  unfold package_retrieved_configuration.
  rewrite (infer_timestamp_of_query parse _ (iso8601_utc_text dt)).
  - by rewrite (convert_compact_format parse _ dt' Hback Hvalid').
  - change (watchlist_api_endpoint +:+ "?dateTime=" +:+ iso8601_utc_text dt)
      with (watchlist_api_endpoint +:+ "?" +:+ ("dateTime=" +:+ iso8601_utc_text dt)).
    apply urlparse_query_of_joined; [reflexivity|].
    unfold no_char. rewrite all_chars_append. apply andb_true_iff.
    split; [reflexivity|].
    apply (all_chars_impl safe_or_colon _ _ safe_or_colon_no_hash Hsafe).
  - apply (all_chars_impl safe_or_colon _ _ safe_or_colon_no_equals Hsafe).
Qed.

Lemma get_config_round_trip_witness :
  package_retrieved_configuration Dateutil.parse
    {| request_url := watchlist_api_endpoint +:+ "?dateTime=2020-03-02T09:05:07Z";
       headers := {[ "date" := "Fri, 20 Nov 2020 11:47:40 GMT" ]};
       content := [] |}
  = Ok {| timestamp := "20200302T090507Z"; config_body := [] |}.
Proof.
  exact (get_config_round_trip Dateutil.parse "Mon, 02 Mar 2020 09:05:07 GMT"
           (watchlist_api_endpoint +:+ "?dateTime=2020-03-02T09:05:07Z")
           early_march early_march
           {[ "date" := "Fri, 20 Nov 2020 11:47:40 GMT" ]} []
           ltac:(discriminate) eq_refl ltac:(unfold valid_datetime; cbn; lia)
           eq_refl ltac:(unfold valid_datetime; cbn; lia) eq_refl).
Defined.

(** ** config_retriever.py: failures and the packaged configuration *)

Lemma partition_before_chars (p : ascii -> bool) (sep : ascii) (s : string) :
  Py.all_chars p s = true -> Py.all_chars p (Py.partition sep s).1 = true.
Proof.
  induction s as [|c s IH]; [done|]. cbn [Py.all_chars Py.partition].
  rewrite andb_true_iff. intros [Hc Hs].
  destruct (Ascii.eqb c sep); [done|].
  destruct (Py.partition sep s) as [before after]. cbn [fst Py.all_chars] in *.
  by rewrite Hc, IH.
Qed.

(** X8.  When [infer_timestamp_from_retrieved_response] cannot name a
    timestamp: a request URL without "?" has an empty query; with an empty
    query and no Date header among the response headers the call raises
    [KeyError]; with a non-empty query that holds no "=" it raises
    [IndexError], whether or not a Date header is present. *)
Theorem infer_timestamp_failures (parse : string -> option datetime)
    (response : Response) :
  (no_char "?" response.(request_url) = true ->
   Urllib.urlparse_query response.(request_url) = "")
  /\ (Urllib.urlparse_query response.(request_url) = "" ->
      response.(headers) !! "date" = None ->
      infer_timestamp_from_retrieved_response parse response = Raise (KeyError "date"))
  /\ (Urllib.urlparse_query response.(request_url) <> "" ->
      no_equals (Urllib.urlparse_query response.(request_url)) = true ->
      infer_timestamp_from_retrieved_response parse response = Raise IndexError).
Proof.
  split_and!.
  - intros Hq. unfold Urllib.urlparse_query.
    rewrite (partition_absent "?"); [done|].
    by apply partition_before_chars.
  - intros Hq Hdate. unfold infer_timestamp_from_retrieved_response.
    rewrite Hq. cbn [String.eqb]. unfold headers_getitem.
    change (Py.lower "Date") with "date". by rewrite Hdate.
  - intros Hq Hne. unfold infer_timestamp_from_retrieved_response.
    destruct (String.eqb_spec (Urllib.urlparse_query (request_url response)) "");
      [done|].
    by rewrite (split_no_equals _ Hne).
Qed.

Lemma infer_timestamp_failures_witness :
  infer_timestamp_from_retrieved_response Dateutil.parse
    {| request_url := watchlist_api_endpoint +:+ "?latest";
       headers := {[ "date" := "Fri, 20 Nov 2020 11:47:40 GMT" ]};
       content := [] |}
  = Raise IndexError
  /\ infer_timestamp_from_retrieved_response Dateutil.parse
       {| request_url := watchlist_api_endpoint; headers := ∅; content := [] |}
     = Raise (KeyError "date").
Proof.
  split.
  - destruct (infer_timestamp_failures Dateutil.parse
                {| request_url := watchlist_api_endpoint +:+ "?latest";
                   headers := {[ "date" := "Fri, 20 Nov 2020 11:47:40 GMT" ]};
                   content := [] |}) as (_ & _ & H).
    exact (H ltac:(discriminate) eq_refl).
  - destruct (infer_timestamp_failures Dateutil.parse
                {| request_url := watchlist_api_endpoint; headers := ∅;
                   content := [] |}) as (_ & H & _).
    exact (H eq_refl eq_refl).
Defined.





(** ** config_sender.py: which files pass validation *)

Lemma validate_rows_Ok_iff (rows : list (list string)) : forall start,
  (validate_rows start rows).1 = Ok tt <->
  forall i row, rows !! i = Some row -> row_check (start + i) row = Ok tt.
Proof.
  induction rows as [|row rows IH]; intros start.
  - split; [by intros _ i r | done].
  - rewrite validate_rows_step. split.
    + intros Hok [|i] r Hr.
      * injection Hr as <-. rewrite Nat.add_0_r.
        destruct (row_check start row) as [[]|e]; [done | done].
      * destruct (row_check start row) as [[]|e]; [|done].
        rewrite <- Nat.add_succ_comm. by apply (IH (S start)).
    + intros Hall.
      specialize (Hall 0%nat row eq_refl) as H0. rewrite Nat.add_0_r in H0.
      rewrite H0. apply IH. intros i r Hr. rewrite Nat.add_succ_comm.
      by apply (Hall (S i)).
Qed.

Lemma validate_row_index_irrelevant (row : string) (i j : nat) :
  validate_row row i = Ok tt -> validate_row row j = Ok tt.
Proof.
  unfold validate_row. by destruct (negb (Re.re_match row_pattern row)).
Qed.

(** Acceptance looks at the header, and at each data row on its own. *)
Lemma accepted_cons_iff (header : list string) (data : list (list string)) :
  accepted (header :: data) <->
  validate_header (Py.join "," header) = Ok tt
  /\ Forall (fun row => validate_row (Py.join "," row) 1 = Ok tt) data.
Proof.
  unfold accepted, validate_watchlist_configuration_file.
  rewrite validate_rows_Ok_iff, Forall_lookup. split.
  - intros Hall. split; [exact (Hall 0%nat header eq_refl)|].
    intros i row Hrow. specialize (Hall (S i) row Hrow).
    by apply (validate_row_index_irrelevant _ (S i)).
  - intros [Hheader Hdata] [|i] row Hrow.
    + by injection Hrow as <-.
    + apply (validate_row_index_irrelevant _ 1). by apply (Hdata i).
Qed.

(** X10.  The files [validate_watchlist_configuration_file] accepts: the
    file without any row (no header is demanded of an empty file), and the
    files whose first row, joined by commas, is the header text optionally
    followed by a newline and whose every other row, joined by commas, is
    a 3-or-4-digit id, a comma and a non-empty symbol over the allowed
    characters, optionally followed by a newline. *)
Theorem accepted_files (csv_rows : list (list string)) :
  accepted csv_rows <->
  match csv_rows with
  | [] => True
  | header :: data =>
      accepted_header (Py.join "," header)
      /\ Forall (fun row => accepted_row (Py.join "," row)) data
  end.
Proof.
  destruct csv_rows as [|header data]; [done|].
  rewrite accepted_cons_iff, validate_header_accepts_iff.
  apply and_iff_compat_l, Forall_proper; [|done].
  intros row. apply validate_row_accepts_iff.
Qed.

(** X11.  Validation never compares one row with another: if a file is
    accepted, so is every file with the same header whose data rows are all
    taken from it, in any order and any number of times (duplicated and
    conflicting source ids pass). *)
Theorem accepted_rows_any_order (header : list string)
    (data data' : list (list string)) :
  accepted (header :: data) ->
  (forall row, row ∈ data' -> row ∈ data) ->
  accepted (header :: data').
Proof.
  rewrite !accepted_cons_iff, !Forall_forall.
  intros [Hheader Hdata] Hsub. split; [done|].
  intros row Hrow. by apply Hdata, Hsub.
Qed.

Lemma accepted_rows_any_order_witness :
  accepted [["sourceId"; "RTSsymbol"]; ["673"; "ABC"]; ["207"; "X"]; ["207"; "X"]].
Proof.
  apply (accepted_rows_any_order ["sourceId"; "RTSsymbol"]
           [["207"; "X"]; ["673"; "ABC"]]).
  - reflexivity.
  - intros row Hrow. rewrite !elem_of_cons in Hrow. rewrite !elem_of_cons.
    destruct Hrow as [-> | [-> | [-> | Hrow]]];
      [by right; left | by left | by left | by apply elem_of_nil in Hrow].
Defined.

(** ** config_sender.py: when the report can be built *)

Lemma ids_section_Ok_iff (rs : RequestSummary) (c : category) :
  (exists s, ids_section rs c = Ok s) <-> section_buildable rs c.
Proof.
  unfold ids_section, section_buildable.
  destruct (summary rs !! count_key c) as [[| [|n|n] |items]|];
    destruct (summary rs !! ids_key c) as [[|m|ids]|];
    (split; intros H;
     first [ by eexists
           | by left
           | right; by eexists
           | destruct H as [? H]; discriminate
           | destruct H as [H | [? H]]; discriminate ]).
Qed.

Lemma ids_section_Raise (rs : RequestSummary) (c : category) (e : exn) :
  ids_section rs c = Raise e -> e = TypeError.
Proof.
  unfold ids_section.
  destruct (summary rs !! count_key c) as [[| [|n|n] |items]|];
    destruct (summary rs !! ids_key c) as [[|m|ids]|]; congruence.
Qed.

(** X12.  On a summary mapping whose values are of the declared type
    (integers and lists of strings), any of whose keys may be missing,
    [stringify_response_summary] returns a report exactly when every
    category either has the integer 0 under its count key or a list under
    its ids key; in every other case it raises, and the only exception it
    can raise is [TypeError].  A count that disagrees with the length of
    its list is not noticed. *)
Theorem stringify_succeeds_iff (rs : RequestSummary) :
  ((exists out, stringify_response_summary rs = Ok out) <->
   forall c, section_buildable rs c)
  /\ (forall e, stringify_response_summary rs = Raise e -> e = TypeError).
Proof.
  rewrite stringify_sections. split.
  - split.
    + intros [out Hout] c.
      destruct (ids_section rs Created) as [s1|] eqn:H1; [|done].
      destruct (ids_section rs Updated) as [s2|] eqn:H2; [|done].
      destruct (ids_section rs Failed) as [s3|] eqn:H3; [|done].
      destruct (ids_section rs Deactivated) as [s4|] eqn:H4; [|done].
      apply ids_section_Ok_iff. destruct c; by eexists.
    + intros Hall.
      destruct (proj2 (ids_section_Ok_iff rs Created) (Hall Created)) as [s1 ->].
      destruct (proj2 (ids_section_Ok_iff rs Updated) (Hall Updated)) as [s2 ->].
      destruct (proj2 (ids_section_Ok_iff rs Failed) (Hall Failed)) as [s3 ->].
      destruct (proj2 (ids_section_Ok_iff rs Deactivated) (Hall Deactivated)) as [s4 ->].
      by eexists.
  - intros e.
    destruct (ids_section rs Created) as [s1|e1] eqn:H1;
      [|intros [= <-]; by apply (ids_section_Raise rs Created)].
    destruct (ids_section rs Updated) as [s2|e2] eqn:H2;
      [|intros [= <-]; by apply (ids_section_Raise rs Updated)].
    destruct (ids_section rs Failed) as [s3|e3] eqn:H3;
      [|intros [= <-]; by apply (ids_section_Raise rs Failed)].
    destruct (ids_section rs Deactivated) as [s4|e4] eqn:H4;
      [|intros [= <-]; by apply (ids_section_Raise rs Deactivated)].
    done.
Qed.

(** ** scripts/cli.py: what is echoed for an HTTP error *)

Lemma split_first_segment (sep : ascii) (first rest : string) :
  no_char sep first = true ->
  Py.split sep (first +:+ String sep rest) !! 0%nat = Some first.
Proof.
  induction first as [|c s IH].
  - intros _. rewrite append_empty_l. cbn [Py.split]. by rewrite Ascii.eqb_refl.
  - unfold no_char. cbn [Py.all_chars]. rewrite andb_true_iff, negb_true_iff.
    intros [Hc Hs]. rewrite append_cons. cbn [Py.split]. rewrite Hc.
    specialize (IH Hs).
    destruct (Py.split sep (s +:+ String sep rest)) as [|seg segs]; [done|].
    by injection IH as ->.
Qed.

Lemma split_absent (sep : ascii) (s : string) :
  no_char sep s = true -> Py.split sep s = [s].
Proof.
  induction s as [|c s IH]; [done|]. unfold no_char. cbn [Py.all_chars Py.split].
  rewrite andb_true_iff, negb_true_iff. intros [-> Hs]. by rewrite (IH Hs).
Qed.

Lemma take_chars_append (a b : string) :
  take_chars (String.length a) (a +:+ b) = a.
Proof.
  induction a as [|c a IH]; [by destruct b|].
  rewrite append_cons. cbn [String.length take_chars]. by rewrite IH.
Qed.

(** X13.  What the commands echo for an HTTP error: only the text before
    the first colon of the error (the reason and the URL that follow are not
    shown), and after it ": " and the cause when the first three characters
    are a key of the command's table.  The submit command explains exactly
    400, 401 and 500, the retrieve command exactly 401 and 404; any other
    status is echoed without a cause. *)
Theorem http_error_report_cases (known_error_causes : gmap string string)
    (status kind rest : string) :
  String.length status = 3%nat ->
  no_char ":" (status +:+ kind) = true ->
  http_error_report known_error_causes (status +:+ kind +:+ ":" +:+ rest)
  = status +:+ kind
    +:+ match known_error_causes !! status with
        | Some cause => ": " +:+ cause
        | None => ""
        end
  /\ http_error_report known_error_causes (status +:+ kind)
     = http_error_report known_error_causes (status +:+ kind +:+ ":" +:+ rest)
  /\ (forall code, is_Some (send_config_known_error_causes !! code)
                   <-> code = "400" \/ code = "401" \/ code = "500")
  /\ (forall code, is_Some (get_config_known_error_causes !! code)
                   <-> code = "401" \/ code = "404").
Proof.
  intros Hlen Hcolon.
  assert (http_error_report known_error_causes (status +:+ kind +:+ ":" +:+ rest)
          = status +:+ kind
            +:+ match known_error_causes !! status with
                | Some cause => ": " +:+ cause
                | None => ""
                end) as Hfull.
  { unfold http_error_report.
    rewrite <- (append_assoc status kind).
    change ((status +:+ kind) +:+ ":" +:+ rest)
      with ((status +:+ kind) +:+ String ":" rest).
    rewrite (split_first_segment ":" _ rest Hcolon). cbn [default from_option id].
    rewrite <- Hlen at 1. rewrite take_chars_append.
    destruct (known_error_causes !! status); by rewrite ?append_assoc, ?append_empty_r. }
  split_and!.
  - exact Hfull.
  - rewrite Hfull. unfold http_error_report.
    rewrite (split_absent ":" _ Hcolon). cbn [lookup list_lookup default from_option id].
    rewrite <- Hlen at 1. rewrite take_chars_append.
    destruct (known_error_causes !! status); by rewrite ?append_assoc, ?append_empty_r.
  - intros code. unfold send_config_known_error_causes. split.
    + intros [cause Hc].
      destruct (decide (code = "400")) as [|H1]; [by left|].
      destruct (decide (code = "401")) as [|H2]; [by right; left|].
      destruct (decide (code = "500")) as [|H3]; [by right; right|].
      by simplify_map_eq.
    + intros [-> | [-> | ->]]; by eexists.
  - intros code. unfold get_config_known_error_causes. split.
    + intros [cause Hc].
      destruct (decide (code = "401")) as [|H1]; [by left|].
      destruct (decide (code = "404")) as [|H2]; [by right|].
      by simplify_map_eq.
    + intros [-> | ->]; by eexists.
Qed.

Lemma http_error_report_cases_witness :
  http_error_report get_config_known_error_causes
    ("404" +:+ " Client Error" +:+ ":" +:+ " Not Found for url: https://host/path")
  = "404" +:+ " Client Error"
    +:+ ": No active configuration for the given date and time".
Proof.
  destruct (http_error_report_cases get_config_known_error_causes
              "404" " Client Error" " Not Found for url: https://host/path"
              eq_refl eq_refl) as [H _].
  exact H.
Defined.

